(** * GIF writers of moviepy: a shallow embedding of
      [moviepy/video/io/gif_writers.py]

    The two exporters [write_gif] and [write_gif_with_tempfiles] are modelled
    as programs of a small trace-and-exception monad: every externally
    visible action (a process launch, a write on the entry pipe, a progress
    callback, a close, a wait, a terminal message) is an [event] appended to
    the trace, and a Python exception ends the run with [Raised].

    Python floats are modelled as exact rationals ([Q]). *)

From Stdlib Require Import ZArith QArith Qround Qabs List String Ascii Bool Lia Lqa.
From Stdlib Require Import DecimalString.
From Stdlib Require DecimalPos.
Import ListNotations.

Local Open Scope string_scope.
Local Open Scope list_scope.
Local Open Scope Z_scope.

(** ** Python values and string formatting *)

Module Py.

(** The values the loosely typed parameter [opt] can take. *)
Inductive pyval : Type :=
| PyNone
| PyBool (b : bool)
| PyInt (z : Z)
| PyStr (s : string).

(** Truth value of a Python object, as tested by [if opt:]. *)
Definition truthy (v : pyval) : bool :=
  match v with
  | PyNone => false
  | PyBool b => b
  | PyInt z => negb (z =? 0)
  | PyStr s => negb (s =? "")%string
  end.

(** [v in [False, None]]: membership compares with [==], and
    [0 == False] holds in Python. *)
Definition in_False_None (v : pyval) : bool :=
  match v with
  | PyNone => true
  | PyBool b => negb b
  | PyInt z => z =? 0
  | PyStr _ => false
  end.

(** ["%s" % v] *)
Definition fmt_s (v : pyval) : string :=
  match v with
  | PyNone => "None"
  | PyBool true => "True"
  | PyBool false => "False"
  | PyInt z => NilZero.string_of_int (Z.to_int z)
  | PyStr s => s
  end.

(** ["%d" % z] *)
Definition fmt_d (z : Z) : string := NilZero.string_of_int (Z.to_int z).

Fixpoint zeros (n : nat) : string :=
  match n with
  | O => ""
  | S n' => ("0" ++ zeros n')%string
  end.

(** ["%0<width>d" % z]: zeros are inserted after the sign. *)
Definition fmt_0d (width : nat) (z : Z) : string :=
  if z <? 0
  then ("-" ++ zeros (width - 1 - String.length (fmt_d (- z))) ++ fmt_d (- z))%string
  else (zeros (width - String.length (fmt_d z)) ++ fmt_d z)%string.

(** [int(x)] on a float: truncation toward zero. *)
Definition int (x : Q) : Z := Z.quot (Qnum x) (Zpos (Qden x)).

(** Rounding to the nearest integer, ties to even, as the C library
    does when it prints a float with a fixed number of decimals. *)
Definition round_half_even (x : Q) : Z :=
  let f := Qfloor x in
  match Qcompare (x - inject_Z f) (1 # 2) with
  | Lt => f
  | Gt => f + 1
  | Eq => if Z.even f then f else f + 1
  end.

(** ["%.02f" % x] *)
Definition fmt_02f (x : Q) : string :=
  let n := round_half_even (Qabs x * 100) in
  ((if Qlt_le_dec x 0 then "-" else "")
     ++ fmt_d (n / 100) ++ "." ++ fmt_0d 2 (n mod 100))%string.

End Py.

(** ** Exceptions, events and the trace monad *)

(** The Python exceptions the two exporters can end with. *)
Inductive exn : Type :=
| IOError (msg : string)
| OSError (msg : string)
| ZeroDivisionError
| ValueError
| TypeError
| AttributeError
| UnboundLocalError.

(** What a standard stream of a child process is connected to:
    [DEVNULL], [sp.PIPE], or the [stdout] pipe of an earlier process. *)
Inductive stream : Type :=
| DEVNULL
| PIPE
| stdout_of (proc : nat).

(** The keyword dictionary [popen_params]. *)
Record popen_params : Type := mk_popen_params {
  stdout : stream;
  stderr : stream;
  stdin : stream;
  creationflags : option Z
}.

Definition set_stdin (s : stream) (p : popen_params) : popen_params :=
  mk_popen_params (stdout p) (stderr p) s (creationflags p).

Definition set_stdout (s : stream) (p : popen_params) : popen_params :=
  mk_popen_params s (stderr p) (stdin p) (creationflags p).

Definition set_creationflags (f : Z) (p : popen_params) : popen_params :=
  mk_popen_params (stdout p) (stderr p) (stdin p) (Some f).

(** Externally visible actions.  Processes are named by their position in
    the pipeline: [proc1] is 1, [proc2] is 2, [proc3] is 3. *)
Inductive event : Type :=
| Print (s : string)                      (* verbose_print *)
| Popen (proc : nat) (cmd : list string) (params : popen_params)
| StdinWrite (bytes : list Z)             (* proc1.stdin.write *)
| ProgressCb (count total : Z)            (* progress_cb(count, nframes) *)
| StdinClose (proc : nat)                 (* proc.stdin.close() *)
| Wait (proc : nat)                       (* proc.wait() *)
| SaveFrame (name : string) (t : Q)       (* clip.save_frame *)
| SubprocessCall (cmd : list string)      (* subprocess_call *)
| Remove (name : string).                 (* os.remove *)

Inductive result (A : Type) : Type :=
| Ok (a : A)
| Raised (e : exn).

Arguments Ok {A} a.
Arguments Raised {A} e.

(** A run: the events performed, in order, and how the run ended. *)
Definition M (A : Type) : Type := (list event * result A)%type.

Definition ret {A} (a : A) : M A := ([], Ok a).

Definition raise {A} (e : exn) : M A := ([], Raised e).

Definition emit (ev : event) : M unit := ([ev], Ok tt).

Definition bind {A B} (m : M A) (f : A -> M B) : M B :=
  match m with
  | (tr, Ok a) => let (tr', r) := f a in (tr ++ tr', r)
  | (tr, Raised e) => (tr, Raised e)
  end.

Notation "x <- m ;; k" := (bind m (fun x => k))
  (at level 61, m at next level, right associativity).
Notation "m ;;; k" := (bind m (fun _ => k))
  (at level 61, right associativity).

(** [try: m  except IOError as err: h (str err)] *)
Definition try_except_IOError {A} (m : M A) (h : string -> M A) : M A :=
  match m with
  | (tr, Raised (IOError msg)) => let (tr', r) := h msg in (tr ++ tr', r)
  | _ => m
  end.

(** [try: m  except (IOError, OSError) as err: h (str err)] *)
Definition try_except_IOError_OSError {A} (m : M A) (h : string -> M A) : M A :=
  match m with
  | (tr, Raised (IOError msg)) => let (tr', r) := h msg in (tr ++ tr', r)
  | (tr, Raised (OSError msg)) => let (tr', r) := h msg in (tr ++ tr', r)
  | _ => m
  end.

(** ** The environment and the clip *)

(** What the exporters get from outside the module: configuration, the
    platform, and whether a launch or a write fails.  An oracle answers
    [Some msg] when the operation raises, [msg] being [str(err)]. *)
Record env : Type := {
  os_name : string;                               (* os.name *)
  FFMPEG_BINARY : string;                         (* get_setting *)
  IMAGEMAGICK_BINARY : string;                    (* get_setting *)
  popen_error : list string -> option string;     (* sp.Popen raises OSError *)
  stdin_write_error : nat -> list Z -> option string;
                                  (* the write of frame number i raises IOError *)
  subprocess_call_error : list string -> option string;
                                  (* subprocess_call raises IOError *)
  splitext : string -> string * string;           (* os.path.splitext *)
  str_float : Q -> string                         (* str(fps) *)
}.

(** A frame is an array of shape (height, width, channels) of 8-bit
    samples; a mask frame has shape (height, width) and float entries. *)
Definition frame : Type := list (list (list Z)).
Definition mask_frame : Type := list (list Q).
Definition float_frame : Type := list (list (list Q)).

(** The attributes and methods of [clip] that the exporters use.  [mask]
    is [None] or the [get_frame] method of [clip.mask]; [iter_frames fps]
    is the sequence [clip.iter_frames(fps=fps, with_times=True,
    dtype="uint8")] yields.  The decorators [requires_duration] and
    [use_clip_fps_by_default] have already run: the duration is set and
    [fps] is a number. *)
Record clip : Type := {
  duration : Q;
  w : Z;
  h : Z;
  mask : option (Q -> mask_frame);
  iter_frames : Q -> list (Q * frame)
}.

(** The argument [progress_cb], up to what [callable] tells of it. *)
Inductive callback : Type :=
| NotCallable
| Callable.

Definition callable (cb : callback) : bool :=
  match cb with
  | Callable => true
  | NotCallable => false
  end.

(** ** numpy *)

Module np.

(** Pairing of two sequences that must have the same length, as numpy
    requires of the axes it does not join. *)
Fixpoint zip_strict {A B C} (f : A -> B -> option C)
         (l1 : list A) (l2 : list B) : option (list C) :=
  match l1, l2 with
  | [], [] => Some []
  | a :: l1', b :: l2' =>
      match f a b, zip_strict f l1' l2' with
      | Some c, Some cs => Some (c :: cs)
      | _, _ => None
      end
  | _, _ => None
  end.

(** [np.dstack([frame, mask])]: the mask becomes one more channel of
    every pixel; the result is a float array.  [None] is the
    [ValueError] numpy raises when heights or widths differ. *)
Definition dstack (f : frame) (m : mask_frame) : option float_frame :=
  zip_strict
    (zip_strict (fun px a => Some (map inject_Z px ++ [a])))
    f m.

(** [a.astype('uint8')] on a float array: each entry is truncated
    toward zero and kept modulo 256. *)
Definition astype_uint8 (a : float_frame) : frame :=
  map (map (map (fun x => Py.int x mod 256))) a.

(** [k * m] for a scalar [k]. *)
Definition scale (k : Q) (m : mask_frame) : mask_frame :=
  map (map (Qmult k)) m.

(** [a.tostring()]: the samples in row-major order, no padding. *)
Definition tostring (f : frame) : list Z :=
  List.concat (map (@List.concat Z) f).

(** [np.arange(start, stop, step)] on floats:
    ceil((stop - start) / step) values [start + i * step]. *)
Definition arange (start stop step : Q) : list Q :=
  map (fun i => start + inject_Z (Z.of_nat i) * step)%Q
      (seq 0 (Z.to_nat (Qceiling ((stop - start) / step)))).

End np.

(** ** Primitive actions *)

(** The newline character of the Python literals. *)
Definition nl : string := String (ascii_of_nat 10) "".

(** [verbose_print(verbose, s)] *)
Definition verbose_print (verbose : bool) (s : string) : M unit :=
  if verbose then emit (Print s) else ret tt.

(** [x / fps] on floats; a zero divisor raises. *)
Definition truediv (x fps : Q) : M Q :=
  if Qeq_bool fps 0 then raise ZeroDivisionError else ret (x / fps)%Q.

(** [sp.Popen(cmd, **params)], bound to the variable of process [proc]. *)
Definition sp_Popen (e : env) (proc : nat) (cmd : list string)
           (params : popen_params) : M unit :=
  match popen_error e cmd with
  | Some msg => raise (OSError msg)
  | None => emit (Popen proc cmd params)
  end.

(** [proc1.stdin.write(bytes)], for the frame of index [i]. *)
Definition stdin_write (e : env) (i : nat) (bytes : list Z) : M unit :=
  match stdin_write_error e i bytes with
  | Some msg => raise (IOError msg)
  | None => emit (StdinWrite bytes)
  end.

(** ** [write_gif] *)

Definition pix_fmt (withmask : bool) : string :=
  if withmask then "rgba" else "rgb24".

(** The list [cmd1] (lines 219-224). *)
Definition cmd1 (e : env) (c : clip) (fps : Q) (withmask : bool) : list string :=
  [FFMPEG_BINARY e; "-y"; "-loglevel"; "error";
   "-f"; "rawvideo";
   "-vcodec"; "rawvideo"; "-r"; Py.fmt_02f fps;
   "-s"; (Py.fmt_d (w c) ++ "x" ++ Py.fmt_d (h c))%string;
   "-pix_fmt"; pix_fmt withmask;
   "-i"; "-"].

(** The list [cmd2] (lines 249-251). *)
Definition cmd2 (e : env) (delay : Q) (dispose : bool) (loop : Z) : list string :=
  [IMAGEMAGICK_BINARY e; "-delay"; Py.fmt_02f delay;
   "-dispose"; Py.fmt_d (if dispose then 2 else 1);
   "-loop"; Py.fmt_d loop; "-"; "-coalesce"].

(** The list [cmd3] (lines 265-268), for an [opt] that is a string. *)
Definition cmd3 (e : env) (opt : string) (fuzz : Z) (colors : option Z)
           (filename : string) : list string :=
  [IMAGEMAGICK_BINARY e; "-"; "-layers"; opt;
   "-fuzz"; (Py.fmt_d fuzz ++ "%")%string]
  ++ (match colors with
      | Some n => ["-colors"; Py.fmt_d n]
      | None => []
      end)
  ++ [filename].

(** The dictionary [popen_params] as first built (lines 226-231). *)
Definition popen_params0 (e : env) : popen_params :=
  let p := mk_popen_params DEVNULL DEVNULL DEVNULL None in
  if (os_name e =? "nt")%string then set_creationflags 134217728 p else p.

(** Launching the processes (lines 233-272).  [withmask] is the flag
    after line 217.  In [cmd3] the value of [opt] is an element of the
    argument list: [sp.Popen] raises [TypeError] when it is not a
    string. *)
Definition launch_pipeline (e : env) (c : clip) (filename : string) (fps : Q)
           (program : string) (opt : Py.pyval) (fuzz : Z) (withmask : bool)
           (loop : Z) (dispose : bool) (colors : option Z) (delay : Q) : M unit :=
  let popen_params := popen_params0 e in
  popen_params <-
    (if (program =? "ffmpeg")%string then
       let popen_params := set_stdout DEVNULL (set_stdin PIPE popen_params) in
       sp_Popen e 1 (cmd1 e c fps withmask
                       ++ ["-pix_fmt"; pix_fmt withmask;
                           "-r"; Py.fmt_02f fps; filename])
                popen_params ;;;
       ret popen_params
     else
       let popen_params := set_stdout PIPE (set_stdin PIPE popen_params) in
       sp_Popen e 1 (cmd1 e c fps withmask
                       ++ ["-f"; "image2pipe"; "-vcodec"; "bmp"; "-"])
                popen_params ;;;
       ret popen_params) ;;
  if (program =? "ImageMagick")%string then
    let cmd2 := cmd2 e delay dispose loop in
    popen_params <-
      (if Py.in_False_None opt then
         let popen_params := set_stdout DEVNULL (set_stdin (stdout_of 1) popen_params) in
         sp_Popen e 2 (cmd2 ++ [filename]) popen_params ;;;
         ret popen_params
       else
         let popen_params := set_stdout PIPE (set_stdin (stdout_of 1) popen_params) in
         sp_Popen e 2 (cmd2 ++ ["gif:-"]) popen_params ;;;
         ret popen_params) ;;
    if Py.truthy opt then
      let popen_params := set_stdout DEVNULL (set_stdin (stdout_of 2) popen_params) in
      match opt with
      | Py.PyStr s => sp_Popen e 3 (cmd3 e s fuzz colors filename) popen_params
      | _ => raise TypeError
      end
    else ret tt
  else ret tt.

(** The frame handed to the pipe (lines 286-288). *)
Definition composite (c : clip) (withmask : bool) (t : Q) (fr : frame) : M frame :=
  if withmask then
    match mask c with
    | Some get_frame =>
        match np.dstack fr (np.scale 255 (get_frame t)) with
        | Some a => ret (np.astype_uint8 a)
        | None => raise ValueError
        end
    | None => raise AttributeError
    end
  else ret fr.

(** The loop of lines 284-294 over the frames still to come; [i] is the
    index of the next frame and [count] the variable of that name, which
    the source only keeps when the callback is callable. *)
Fixpoint stream_frames (e : env) (c : clip) (withmask : bool) (cb : callback)
         (nframes : Z) (i : nat) (count : Z) (frames : list (Q * frame)) : M unit :=
  match frames with
  | [] => ret tt
  | (t, fr) :: rest =>
      fr' <- composite c withmask t fr ;;
      stdin_write e i (np.tostring fr') ;;;
      (if callable cb then emit (ProgressCb count nframes) else ret tt) ;;;
      stream_frames e c withmask cb nframes (S i) (count + 1) rest
  end.

(** The text of the [IOError] raised by the handler (lines 298-305). *)
Definition write_gif_error (filename program err : string) : string :=
  (("[MoviePy] Error: creation of " ++ filename ++ " failed because "
    ++ "of the following error:" ++ nl ++ nl ++ err ++ "." ++ nl ++ nl ++ ".")
   ++ (if program =? "ImageMagick"
       then "This can be due to the fact that "
            ++ "ImageMagick is not installed on your computer, or "
            ++ "(for Windows users) that you didn't specify the "
            ++ "path to the ImageMagick binary in file conf.py."
       else ""))%string.

(** Lines 308-316. *)
Definition shutdown (program : string) (opt : Py.pyval) (verbose : bool)
           (filename : string) : M unit :=
  (if (program =? "ImageMagick")%string
   then verbose_print verbose
          ("[MoviePy] Optimizing the GIF with ImageMagick..." ++ nl)%string
   else ret tt) ;;;
  emit (StdinClose 1) ;;;
  emit (Wait 1) ;;;
  (if (program =? "ImageMagick")%string then
     emit (Wait 2) ;;;
     if Py.truthy opt then emit (Wait 3) else ret tt
   else ret tt) ;;;
  verbose_print verbose
    ("[MoviePy] >>>> File " ++ filename ++ " is ready!")%string.

(** Lines 216-217: without a mask there is nothing to composite. *)
Definition effective_withmask (c : clip) (withmask : bool) : bool :=
  match mask c with
  | None => false
  | Some _ => withmask
  end.

(** The argument [progress_bar] only reaches [clip.iter_frames], which
    draws the bar; it does not change the frames. *)
Definition write_gif (e : env) (c : clip) (filename : string) (fps : Q)
           (program : string) (opt : Py.pyval) (fuzz : Z)
           (verbose withmask : bool) (loop : Z) (dispose : bool)
           (colors : option Z) (progress_bar : bool) (progress_cb : callback)
  : M unit :=
  delay <- truediv 100 fps ;;
  let withmask := effective_withmask c withmask in
  launch_pipeline e c filename fps program opt fuzz withmask loop dispose
                  colors delay ;;;
  verbose_print verbose
    (nl ++ "[MoviePy] >>>> Building file " ++ filename ++ nl)%string ;;;
  verbose_print verbose ("[MoviePy] Generating GIF frames..." ++ nl)%string ;;;
  try_except_IOError
    (let nframes := Py.int (duration c * fps) + 1 in
     let count := 1 in
     stream_frames e c withmask progress_cb nframes 0 count (iter_frames c fps))
    (fun err => raise (IOError (write_gif_error filename program err))) ;;;
  shutdown program opt verbose filename.

(** ** [write_gif_with_tempfiles] *)

(** ["%s_GIFTEMP%04d.png" % (fileName, i+1)] *)
Definition tempfile_name (fileName : string) (i : nat) : string :=
  (fileName ++ "_GIFTEMP" ++ Py.fmt_0d 4 (Z.of_nat i + 1) ++ ".png")%string.

(** The loop of lines 87-94 over [enumerate(tt)], from index [i] on; the
    value is the list of names appended to [tempfiles]. *)
Fixpoint save_frames (fileName : string) (cb : callback) (total : Z)
         (i : nat) (ts : list Q) : M (list string) :=
  match ts with
  | [] => ret []
  | t :: rest =>
      let name := tempfile_name fileName i in
      emit (SaveFrame name t) ;;;
      (if callable cb then emit (ProgressCb (Z.of_nat i + 1) total) else ret tt) ;;;
      names <- save_frames fileName cb total (S i) rest ;;
      ret (name :: names)
  end.

(** The list [cmd] of the ImageMagick branch (lines 100-109). *)
Definition tempfiles_cmd_ImageMagick (e : env) (fileName filename : string)
           (delay : Z) (dispose : bool) (loop : Z) (opt : Py.pyval) (fuzz : Z)
           (colors : option Z) : list string :=
  [IMAGEMAGICK_BINARY e;
   "-delay"; Py.fmt_d delay;
   "-dispose"; Py.fmt_d (if dispose then 2 else 1);
   "-loop"; Py.fmt_d loop;
   (fileName ++ "_GIFTEMP*.png")%string;
   "-coalesce";
   "-layers"; Py.fmt_s opt;
   "-fuzz"; (Py.fmt_0d 2 fuzz ++ "%")%string]
  ++ (match colors with
      | Some n => ["-colors"; Py.fmt_d n]
      | None => []
      end)
  ++ [filename].

(** The list [cmd] of the ffmpeg branch (lines 113-117). *)
Definition tempfiles_cmd_ffmpeg (e : env) (fileName filename : string)
           (fps : Q) : list string :=
  [FFMPEG_BINARY e; "-y";
   "-f"; "image2"; "-r"; str_float e fps;
   "-i"; (fileName ++ "_GIFTEMP%04d.png")%string;
   "-r"; str_float e fps;
   filename].

(** The text of the [IOError] raised by the handler (lines 125-132). *)
Definition tempfiles_error (filename program err : string) : string :=
  (("MoviePy Error: creation of " ++ filename ++ " failed because "
    ++ "of the following error:" ++ nl ++ nl ++ err ++ "." ++ nl ++ nl ++ ".")
   ++ (if program =? "ImageMagick"
       then "This error can be due to the fact that "
            ++ "ImageMagick is not installed on your computer, or "
            ++ "(for Windows users) that you didn't specify the "
            ++ "path to the ImageMagick binary in file conf.py."
       else ""))%string.

(** [subprocess_call(cmd, verbose=verbose)] of [moviepy.tools]. *)
Definition subprocess_call (e : env) (cmd : list string) : M unit :=
  match subprocess_call_error e cmd with
  | Some msg => raise (IOError msg)
  | None => emit (SubprocessCall cmd)
  end.

Fixpoint remove_all (names : list string) : M unit :=
  match names with
  | [] => ret tt
  | f :: rest => emit (Remove f) ;;; remove_all rest
  end.

(** The progress bar of [tqdm] only draws on the terminal and is not
    modelled.  When [program] is neither name, [cmd] is unbound at the
    call. *)
Definition write_gif_with_tempfiles (e : env) (c : clip) (filename : string)
           (fps : Q) (program : string) (opt : Py.pyval) (fuzz : Z)
           (verbose : bool) (loop : Z) (dispose : bool) (colors : option Z)
           (progress_bar : bool) (progress_cb : callback) : M unit :=
  let fileName := fst (splitext e filename) in
  step <- truediv 1 fps ;;
  let tt := np.arange 0 (duration c) step in
  verbose_print verbose
    (nl ++ "[MoviePy] Building file " ++ filename ++ nl
        ++ "----------------------------------------" ++ nl)%string ;;;
  verbose_print verbose ("[MoviePy] Generating GIF frames..." ++ nl)%string ;;;
  let total := Py.int (duration c * fps) + 1 in
  tempfiles <- save_frames fileName progress_cb total 0 tt ;;
  delay <- truediv 100 fps ;;
  let delay := Py.int delay in
  cmd <-
    (if (program =? "ImageMagick")%string then
       verbose_print verbose "[MoviePy] Optimizing GIF with ImageMagick... " ;;;
       ret (Some (tempfiles_cmd_ImageMagick e fileName filename delay dispose
                                            loop opt fuzz colors))
     else if (program =? "ffmpeg")%string then
       ret (Some (tempfiles_cmd_ffmpeg e fileName filename fps))
     else ret None) ;;
  try_except_IOError_OSError
    (match cmd with
     | Some cmd =>
         subprocess_call e cmd ;;;
         verbose_print verbose ("[MoviePy] GIF " ++ filename ++ " is ready.")%string
     | None => raise UnboundLocalError
     end)
    (fun err => raise (IOError (tempfiles_error filename program err))) ;;;
  remove_all tempfiles.

(** ** Reading a trace *)

Definition launches (tr : list event) : list (nat * list string * popen_params) :=
  flat_map (fun ev => match ev with
                      | Popen p cmd params => [(p, cmd, params)]
                      | _ => []
                      end) tr.

Definition writes (tr : list event) : list (list Z) :=
  flat_map (fun ev => match ev with StdinWrite b => [b] | _ => [] end) tr.

Definition callbacks (tr : list event) : list (Z * Z) :=
  flat_map (fun ev => match ev with ProgressCb n t => [(n, t)] | _ => [] end) tr.

Definition waits (tr : list event) : list nat :=
  flat_map (fun ev => match ev with Wait p => [p] | _ => [] end) tr.

Definition closes (tr : list event) : list nat :=
  flat_map (fun ev => match ev with StdinClose p => [p] | _ => [] end) tr.

Definition is_callback (ev : event) : bool :=
  match ev with ProgressCb _ _ => true | _ => false end.

(** The run without its callback invocations. *)
Definition without_callbacks (tr : list event) : list event :=
  filter (fun ev => negb (is_callback ev)) tr.

(** ** Concrete inputs *)

Module Sample.

Definition e : env :=
  {| os_name := "posix";
     FFMPEG_BINARY := "ffmpeg";
     IMAGEMAGICK_BINARY := "convert";
     popen_error := fun _ => None;
     stdin_write_error := fun _ _ => None;
     subprocess_call_error := fun _ => None;
     splitext := fun s => if (s =? "out.gif")%string then ("out", ".gif") else (s, "");
     str_float := fun x => Py.fmt_d (Py.int x) |}.

Definition black : frame := [[[0; 0; 0]]].
Definition grey : frame := [[[128; 128; 128]]].

(** A one-pixel opaque clip of two frames. *)
Definition opaque : clip :=
  {| duration := 1; w := 1; h := 1; mask := None;
     iter_frames := fun _ => [(0%Q, black); ((1 # 2)%Q, grey)] |}.

(** The same clip with a mask of constant opacity one quarter. *)
Definition masked : clip :=
  {| duration := 1; w := 1; h := 1; mask := Some (fun _ => [[(1 # 4)%Q]]);
     iter_frames := fun _ => [(0%Q, black); ((1 # 2)%Q, grey)] |}.

End Sample.

(** ** Auxiliary notions for the statements *)

(** The two messages printed between the launches and the first frame
    (lines 275-276). *)
Definition banner (verbose : bool) (filename : string) : list event :=
  fst (verbose_print verbose
         (nl ++ "[MoviePy] >>>> Building file " ++ filename ++ nl)%string ;;;
       verbose_print verbose ("[MoviePy] Generating GIF frames..." ++ nl)%string).

(** The processes launched in a run, in launch order. *)
Definition launched (tr : list event) : list nat :=
  map (fun l => fst (fst l)) (launches tr).

(** [sub] occurs in [s]. *)
Definition contains (sub s : string) : Prop :=
  exists a b, s = (a ++ sub ++ b)%string.

Definition is_launch (ev : event) : bool :=
  match ev with Popen _ _ _ => true | _ => false end.

Definition is_print (ev : event) : bool :=
  match ev with Print _ => true | _ => false end.

(** What the streaming loop does: writes and callback invocations. *)
Definition is_stream_event (ev : event) : bool :=
  match ev with
  | StdinWrite _ | ProgressCb _ _ => true
  | _ => false
  end.

(** Environments in which something goes wrong. *)
Module Faulty.

(** The pipe breaks once the first frame has been written. *)
Definition broken_pipe : env :=
  {| os_name := "posix";
     FFMPEG_BINARY := "ffmpeg";
     IMAGEMAGICK_BINARY := "convert";
     popen_error := fun _ => None;
     stdin_write_error :=
       fun i _ => if (1 <=? i)%nat then Some "[Errno 32] Broken pipe" else None;
     subprocess_call_error := fun _ => None;
     splitext := splitext Sample.e;
     str_float := str_float Sample.e |}.

(** ImageMagick is not installed: no command starting with its binary
    can be launched. *)
Definition no_ImageMagick : env :=
  {| os_name := "posix";
     FFMPEG_BINARY := "ffmpeg";
     IMAGEMAGICK_BINARY := "convert";
     popen_error :=
       fun cmd => match cmd with
                  | binary :: _ =>
                      if (binary =? "convert")%string
                      then Some "[Errno 2] No such file or directory"
                      else None
                  | [] => None
                  end;
     stdin_write_error := fun _ _ => None;
     subprocess_call_error := fun _ => None;
     splitext := splitext Sample.e;
     str_float := str_float Sample.e |}.

End Faulty.

(** The commands handed to [subprocess_call] in a run. *)
Definition calls (tr : list event) : list (list string) :=
  flat_map (fun ev => match ev with SubprocessCall cmd => [cmd] | _ => [] end) tr.

(** The invocations [(from, total)], [(from + 1, total)], ..., [n] of
    them. *)
Fixpoint progress_reports (from : Z) (n : nat) (total : Z) : list (Z * Z) :=
  match n with
  | O => []
  | S n' => (from, total) :: progress_reports (from + 1) n' total
  end.





(** ** Further readings of a trace *)

(** The frames saved to disk in a run, with their times. *)
Definition saves (tr : list event) : list (string * Q) :=
  flat_map (fun ev => match ev with SaveFrame name t => [(name, t)] | _ => [] end) tr.

(** The files removed in a run. *)
Definition removes (tr : list event) : list string :=
  flat_map (fun ev => match ev with Remove name => [name] | _ => [] end) tr.

(** An array of shape (hh, ww, ch). *)
Definition frame_shape (hh ww ch : nat) (fr : frame) : Prop :=
  List.length fr = hh
  /\ Forall (fun row => List.length row = ww
                        /\ Forall (fun px => List.length px = ch) row) fr.

(** An array of shape (hh, ww). *)
Definition mask_shape (hh ww : nat) (m : mask_frame) : Prop :=
  List.length m = hh /\ Forall (fun row => List.length row = ww) m.

(** The buffer [write_gif] hands to the pipe for the frame [fr] of time
    [t], when compositing raises nothing. *)
Definition buffer_of (c : clip) (withmask : bool) (tf : Q * frame)
  : option (list Z) :=
  match snd (composite c withmask (fst tf) (snd tf)) with
  | Ok fr' => Some (np.tostring fr')
  | Raised _ => None
  end.

(** ** [write_gif_with_image_io] *)

Module ImageIO.

(** What the function does to the outside: it opens a writer, appends
    frames to it, prints and reports progress. *)
Inductive event : Type :=
| Print (s : string)                      (* verbose_print *)
| Save (filename : string) (duration : Q) (quantizer : Py.pyval)
       (palettesize : Z) (loop : Z)       (* imageio.save *)
| AppendData (fr : frame)                 (* writer.append_data *)
| ProgressCb (count total : Z).           (* progress_cb(count, nframes) *)

(** How a call ends. *)
Inductive outcome : Type :=
| Returned
| RaisedImportError (msg : string)
| RaisedZeroDivisionError.

(** [opt != 0]; [False == 0] holds in Python. *)
Definition ne_0 (v : Py.pyval) : bool :=
  match v with
  | Py.PyInt z => negb (z =? 0)
  | Py.PyBool b => b
  | Py.PyNone | Py.PyStr _ => true
  end.

(** The loop of lines 368-376 over the frames still to come. *)
Fixpoint append_frames (cb : callback) (nframes count : Z)
         (frames : list frame) : list event :=
  match frames with
  | [] => []
  | fr :: rest =>
      AppendData fr
        :: (if callable cb then [ProgressCb count nframes] else [])
        ++ append_frames cb nframes (count + 1) rest
  end.

(** [IMAGEIO_FOUND] is the flag set when the module is imported;
    [clip_fps] is the attribute [clip.fps].  Without [with_times] the
    clip yields the frames of its sequence, without their times. *)
Definition write_gif_with_image_io (IMAGEIO_FOUND : bool) (c : clip)
           (clip_fps : Q) (filename : string) (fps : option Q)
           (opt : Py.pyval) (loop : Z) (colors : option Z)
           (verbose progress_bar : bool) (progress_cb : callback)
  : list event * outcome :=
  let colors := match colors with None => 256 | Some n => n end in
  if negb IMAGEIO_FOUND then
    ([], RaisedImportError
           ("Writing a gif with imageio requires ImageIO installed,"
              ++ " with e.g. 'pip install imageio'")%string)
  else
    let fps := match fps with None => clip_fps | Some x => x end in
    let quantizer := if ne_0 opt then Py.PyInt 0 else Py.PyStr "nq" in
    if Qeq_bool fps 0 then ([], RaisedZeroDivisionError)
    else
      let writer := Save filename (1 / fps) quantizer colors loop in
      let nframes := Py.int (duration c * fps) + 1 in
      let count := 1 in
      (writer
         :: (if verbose
             then [Print (nl ++ "[MoviePy] Building file " ++ filename
                             ++ " with imageio" ++ nl)%string]
             else [])
         ++ append_frames progress_cb nframes count
                          (map snd (iter_frames c fps)),
       Returned).

Definition appended (tr : list event) : list frame :=
  flat_map (fun ev => match ev with AppendData fr => [fr] | _ => [] end) tr.

Definition callbacks (tr : list event) : list (Z * Z) :=
  flat_map (fun ev => match ev with ProgressCb n t => [(n, t)] | _ => [] end) tr.

Definition without_callbacks (tr : list event) : list event :=
  filter (fun ev => match ev with ProgressCb _ _ => false | _ => true end) tr.

End ImageIO.

(** The value of the variable [cmd] of [write_gif_with_tempfiles] after
    lines 98-117; [None] when neither branch bound it. *)
Definition tempfiles_cmd (e : env) (filename : string) (fps : Q)
           (program : string) (opt : Py.pyval) (fuzz : Z) (loop : Z)
           (dispose : bool) (colors : option Z) : option (list string) :=
  let fileName := fst (splitext e filename) in
  if (program =? "ImageMagick")%string then
    Some (tempfiles_cmd_ImageMagick e fileName filename (Py.int (100 / fps))
                                    dispose loop opt fuzz colors)
  else if (program =? "ffmpeg")%string then
    Some (tempfiles_cmd_ffmpeg e fileName filename fps)
  else None.

(** The names of the temporary files of [n] frames. *)
Definition tempfile_names (e : env) (filename : string) (n : nat) : list string :=
  map (tempfile_name (fst (splitext e filename))) (seq 0 n).



(** ** Sanity checks of the formatting and array functions *)

Example fmt_d_neg : Py.fmt_d (-5) = "-5".
Proof. reflexivity. Qed.
Example fmt_0d_pad : Py.fmt_0d 4 12 = "0012".
Proof. reflexivity. Qed.
Example fmt_02f_third : Py.fmt_02f (100 / 15) = "6.67".
Proof. reflexivity. Qed.
Example fmt_02f_tie : Py.fmt_02f (1 # 8) = "0.12".
Proof. reflexivity. Qed.
Example int_trunc : Py.int (- (7 # 2)) = -3.
Proof. reflexivity. Qed.

Example dstack_example :
  option_map np.astype_uint8 (np.dstack [[[10; 20; 30]; [1; 2; 3]]] (np.scale 255 [[1; 0]%Q]))
  = Some [[[10; 20; 30; 255]; [1; 2; 3; 0]]].
Proof. reflexivity. Qed.

Example dstack_mismatch : np.dstack [[[10; 20; 30]]] [[1; 0]%Q] = None.
Proof. reflexivity. Qed.

Example arange_example : np.arange 0 1 (1 # 2) = [0 + 0 * (1 # 2); 0 + 1 * (1 # 2)]%Q.
Proof. reflexivity. Qed.


(** ** Laws of the trace monad *)

Lemma bind_Ok {A B} (tr : list event) (a : A) (f : A -> M B) :
  bind (tr, Ok a) f = (tr ++ fst (f a), snd (f a)).
Proof.
  unfold bind. destruct (f a); reflexivity.
Qed.

Lemma bind_Raised {A B} (tr : list event) (ex : exn) (f : A -> M B) :
  bind (tr, Raised ex) f = (tr, Raised ex).
Proof.
  reflexivity.
Qed.

Lemma bind_ret_l {A B} (a : A) (f : A -> M B) : bind (ret a) f = f a.
Proof.
  unfold ret. rewrite bind_Ok. destruct (f a); reflexivity.
Qed.

Lemma bind_emit {B} (ev : event) (f : unit -> M B) :
  bind (emit ev) f = (ev :: fst (f tt), snd (f tt)).
Proof.
  unfold emit. rewrite bind_Ok. reflexivity.
Qed.

Lemma bind_raise {A B} (ex : exn) (f : A -> M B) :
  bind (raise ex) f = ([], Raised ex).
Proof.
  reflexivity.
Qed.

Lemma bind_unit_run {B} (m : M unit) (k : M B) :
  bind m (fun _ => k) =
  match snd m with
  | Ok _ => (fst m ++ fst k, snd k)
  | Raised ex => (fst m, Raised ex)
  end.
Proof.
  destruct m as [tr [[] | ex]]; simpl; [destruct k|]; reflexivity.
Qed.

Lemma verbose_print_Ok (verbose : bool) (s : string) :
  snd (verbose_print verbose s) = Ok tt.
Proof.
  destruct verbose; reflexivity.
Qed.

Lemma shutdown_Ok program opt verbose filename :
  snd (shutdown program opt verbose filename) = Ok tt.
Proof.
  unfold shutdown.
  destruct (program =? "ImageMagick")%string, (Py.truthy opt), verbose;
    reflexivity.
Qed.

(** ** The shape of a run of [write_gif] *)

(** A run is: the division, the launches, the banner, the streaming loop
    under its handler, and the shutdown, which only a normal end of the
    loop reaches. *)
Lemma write_gif_run e c filename fps program opt fuzz verbose withmask loop
      dispose colors progress_bar progress_cb :
  Qeq_bool fps 0 = false ->
  let wm := effective_withmask c withmask in
  let L := launch_pipeline e c filename fps program opt fuzz wm loop dispose
                           colors (100 / fps)%Q in
  let S := stream_frames e c wm progress_cb (Py.int (duration c * fps) + 1)
                         0 1 (iter_frames c fps) in
  write_gif e c filename fps program opt fuzz verbose withmask loop dispose
            colors progress_bar progress_cb =
  match snd L with
  | Raised ex => (fst L, Raised ex)
  | Ok _ =>
      match snd S with
      | Ok _ =>
          (fst L ++ banner verbose filename ++ fst S
               ++ fst (shutdown program opt verbose filename), Ok tt)
      | Raised (IOError err) =>
          (fst L ++ banner verbose filename ++ fst S,
           Raised (IOError (write_gif_error filename program err)))
      | Raised ex => (fst L ++ banner verbose filename ++ fst S, Raised ex)
      end
  end.
Proof.
  intros Hfps wm L S.
  unfold write_gif, truediv. rewrite Hfps, bind_ret_l.
  fold wm. fold L.
  rewrite bind_unit_run.
  destruct (snd L) as [[] | ex]; [|reflexivity].
  unfold banner.
  fold S.
  generalize (shutdown_Ok program opt verbose filename).
  generalize (shutdown program opt verbose filename) as D.
  intros [dtr dres] HD; simpl in HD; subst dres.
  destruct S as [str [[] | ex]]; destruct verbose; simpl.
  all: try (destruct ex; simpl; rewrite ?app_nil_r; reflexivity).
  all: rewrite ?app_nil_r; reflexivity.
Qed.

(** ** Projections of a trace *)

Lemma launches_app tr1 tr2 : launches (tr1 ++ tr2) = launches tr1 ++ launches tr2.
Proof. apply flat_map_app. Qed.

Lemma launched_app tr1 tr2 : launched (tr1 ++ tr2) = launched tr1 ++ launched tr2.
Proof. unfold launched. rewrite launches_app. apply map_app. Qed.

Lemma writes_app tr1 tr2 : writes (tr1 ++ tr2) = writes tr1 ++ writes tr2.
Proof. apply flat_map_app. Qed.

Lemma callbacks_app tr1 tr2 : callbacks (tr1 ++ tr2) = callbacks tr1 ++ callbacks tr2.
Proof. apply flat_map_app. Qed.

Lemma waits_app tr1 tr2 : waits (tr1 ++ tr2) = waits tr1 ++ waits tr2.
Proof. apply flat_map_app. Qed.

Lemma closes_app tr1 tr2 : closes (tr1 ++ tr2) = closes tr1 ++ closes tr2.
Proof. apply flat_map_app. Qed.


(** A trace made of launches only has no other event. *)
Lemma only_launches tr :
  forallb is_launch tr = true ->
  writes tr = [] /\ callbacks tr = [] /\ waits tr = [] /\ closes tr = []
  /\ without_callbacks tr = tr.
Proof.
  induction tr as [|ev tr IH]; simpl; [intuition|].
  intros H. apply andb_prop in H as [Hev Htr].
  destruct (IH Htr) as (Hw & Hc & Hwt & Hcl & Hwc).
  unfold without_callbacks in *.
  destruct ev; try discriminate Hev; simpl.
  rewrite Hwc. intuition.
Qed.

Lemma only_prints tr :
  forallb is_print tr = true ->
  writes tr = [] /\ callbacks tr = [] /\ waits tr = [] /\ closes tr = []
  /\ launches tr = [] /\ without_callbacks tr = tr.
Proof.
  induction tr as [|ev tr IH]; simpl; [intuition|].
  intros H. apply andb_prop in H as [Hev Htr].
  destruct (IH Htr) as (Hw & Hc & Hwt & Hcl & Hl & Hwc).
  unfold without_callbacks in *.
  destruct ev; try discriminate Hev; simpl.
  rewrite Hwc. intuition.
Qed.

Lemma only_stream_events tr :
  forallb is_stream_event tr = true ->
  waits tr = [] /\ closes tr = [] /\ launches tr = [].
Proof.
  induction tr as [|ev tr IH]; simpl; [intuition|].
  intros H. apply andb_prop in H as [Hev Htr].
  destruct (IH Htr) as (Hwt & Hcl & Hl).
  destruct ev; try discriminate Hev; simpl; intuition.
Qed.

Lemma banner_prints verbose filename :
  forallb is_print (banner verbose filename) = true.
Proof.
  unfold banner. destruct verbose; reflexivity.
Qed.

(** ** The launches *)

(** Whatever the outcome, [launch_pipeline] performs launches only, and
    the processes launched are 1, 2, ... in this order. *)
Lemma launch_pipeline_shape e c filename fps program opt fuzz wm loop dispose
      colors delay :
  let L := launch_pipeline e c filename fps program opt fuzz wm loop dispose
                           colors delay in
  forallb is_launch (fst L) = true
  /\ launched (fst L) = seq 1 (List.length (fst L)).
Proof.
  unfold launch_pipeline, sp_Popen.
  destruct (program =? "ffmpeg")%string;
    destruct (program =? "ImageMagick")%string;
    destruct (Py.in_False_None opt);
    destruct (Py.truthy opt);
    repeat match goal with
           | |- context [popen_error ?e ?cmd] =>
               destruct (popen_error e cmd)
           end;
    simpl; try (split; reflexivity);
    destruct opt; simpl;
    repeat match goal with
           | |- context [popen_error ?e ?cmd] =>
               destruct (popen_error e cmd)
           end;
    simpl; split; reflexivity.
Qed.

(** ** The streaming loop *)

Lemma composite_pure c wm t fr : fst (composite c wm t fr) = [].
Proof.
  unfold composite.
  destruct wm; [|reflexivity].
  destruct (mask c) as [get_frame|]; [|reflexivity].
  destruct (np.dstack fr (np.scale 255 (get_frame t))); reflexivity.
Qed.

(** One turn of the loop. *)
Lemma stream_frames_cons e c wm cb nframes i count t fr rest :
  stream_frames e c wm cb nframes i count ((t, fr) :: rest) =
  match snd (composite c wm t fr) with
  | Raised ex => ([], Raised ex)
  | Ok fr' =>
      match stdin_write_error e i (np.tostring fr') with
      | Some msg => ([], Raised (IOError msg))
      | None =>
          let R := stream_frames e c wm cb nframes (S i) (count + 1) rest in
          (StdinWrite (np.tostring fr')
             :: (if callable cb then [ProgressCb count nframes] else [])
             ++ fst R,
           snd R)
      end
  end.
Proof.
  cbn [stream_frames].
  pose proof (composite_pure c wm t fr) as Hp.
  destruct (composite c wm t fr) as [tr [fr' | ex]]; simpl in Hp; subst tr;
    [|reflexivity].
  rewrite bind_Ok. cbn [snd app].
  unfold stdin_write.
  destruct (stdin_write_error e i (np.tostring fr')); [reflexivity|].
  rewrite bind_emit.
  destruct (stream_frames e c wm cb nframes (S i) (count + 1) rest) as [rtr rres].
  destruct (callable cb); reflexivity.
Qed.

Lemma stream_frames_events e c wm cb nframes frames : forall i count,
  forallb is_stream_event
          (fst (stream_frames e c wm cb nframes i count frames)) = true.
Proof.
  induction frames as [|[t fr] rest IH]; intros i count; [reflexivity|].
  rewrite stream_frames_cons.
  destruct (snd (composite c wm t fr)) as [fr'|]; [|reflexivity].
  destruct (stdin_write_error e i (np.tostring fr')); [reflexivity|].
  cbn [fst forallb is_stream_event andb].
  rewrite forallb_app, IH.
  destruct (callable cb); reflexivity.
Qed.







(** ** The single-stage encoder *)

Lemma launch_pipeline_ffmpeg e c filename fps opt fuzz wm loop dispose colors
      delay :
  launch_pipeline e c filename fps "ffmpeg" opt fuzz wm loop dispose colors delay
  = sp_Popen e 1 (cmd1 e c fps wm
                    ++ ["-pix_fmt"; pix_fmt wm; "-r"; Py.fmt_02f fps; filename])
             (set_stdout DEVNULL (set_stdin PIPE (popen_params0 e))).
Proof.
  unfold launch_pipeline, sp_Popen. cbn [String.eqb Ascii.eqb Bool.eqb].
  destruct (popen_error e _); reflexivity.
Qed.

(** C10. With [program = 'ffmpeg'] the parameters [opt], [fuzz],
    [colors], [dispose] and [loop] are not looked at: two calls that
    differ only in them give the same run (same command, same buffers
    written, same outcome), and at most one process, process 1, is
    launched. *)
Theorem write_gif_ffmpeg_ignores_ImageMagick_options e c filename fps verbose
        withmask progress_bar progress_cb
        opt fuzz loop dispose colors opt' fuzz' loop' dispose' colors' :
  write_gif e c filename fps "ffmpeg" opt fuzz verbose withmask loop dispose
            colors progress_bar progress_cb
  = write_gif e c filename fps "ffmpeg" opt' fuzz' verbose withmask loop'
              dispose' colors' progress_bar progress_cb
  /\ (launched (fst (write_gif e c filename fps "ffmpeg" opt fuzz verbose
                               withmask loop dispose colors progress_bar
                               progress_cb)) = []
      \/ launches (fst (write_gif e c filename fps "ffmpeg" opt fuzz verbose
                                  withmask loop dispose colors progress_bar
                                  progress_cb))
         = [(1%nat,
             cmd1 e c fps (effective_withmask c withmask)
               ++ ["-pix_fmt"; pix_fmt (effective_withmask c withmask);
                   "-r"; Py.fmt_02f fps; filename],
             set_stdout DEVNULL (set_stdin PIPE (popen_params0 e)))]).
Proof.
  split.
  - unfold write_gif, truediv.
    destruct (Qeq_bool fps 0); [reflexivity|].
    rewrite !bind_ret_l, !launch_pipeline_ffmpeg.
    unfold shutdown, write_gif_error. cbn [String.eqb Ascii.eqb Bool.eqb].
    reflexivity.
  - destruct (Qeq_bool fps 0) eqn:Hfps.
    + left. unfold write_gif, truediv. rewrite Hfps. reflexivity.
    + rewrite write_gif_run by exact Hfps.
      set (wm := effective_withmask c withmask).
      rewrite launch_pipeline_ffmpeg.
      pose proof (stream_frames_events e c wm progress_cb
                    (Py.int (duration c * fps) + 1) (iter_frames c fps) 0%nat 1)
        as HS.
      apply only_stream_events in HS as (_ & _ & HS).
      pose proof (banner_prints verbose filename) as HB.
      apply only_prints in HB as (_ & _ & _ & _ & HB & _).
      unfold sp_Popen.
      destruct (popen_error e _); [left; reflexivity|].
      right. cbn [snd fst emit].
      destruct (snd (stream_frames e c wm progress_cb _ _ _ _)) as [[]|ex];
        [|destruct ex]; cbn [fst];
        rewrite ?launches_app, ?HB, ?HS; try reflexivity.
      all: unfold shutdown; cbn [String.eqb Ascii.eqb Bool.eqb];
        destruct verbose; reflexivity.
Qed.

(** ** A failing write *)

Lemma string_app_assoc (a b c : string) :
  ((a ++ b) ++ c = a ++ (b ++ c))%string.
Proof.
  induction a as [|ch a IH]; simpl; [reflexivity|].
  rewrite IH. reflexivity.
Qed.

Lemma write_gif_error_contains_filename filename program err :
  contains filename (write_gif_error filename program err).
Proof.
  unfold contains, write_gif_error.
  eexists "[MoviePy] Error: creation of ", _.
  rewrite !string_app_assoc. reflexivity.
Qed.

Lemma write_gif_error_contains_cause filename program err :
  contains err (write_gif_error filename program err).
Proof.
  unfold contains, write_gif_error.
  exists ("[MoviePy] Error: creation of " ++ filename ++ " failed because "
            ++ "of the following error:" ++ nl ++ nl)%string.
  eexists.
  rewrite !string_app_assoc. reflexivity.
Qed.

(** When the frames before frame [t] went through and the write of frame
    [t] raises, the loop stops there: its events are those of the frames
    before. *)
Lemma stream_frames_write_fails e c wm cb nframes t fr fr' post cause :
  forall pre i count,
  snd (stream_frames e c wm cb nframes i count pre) = Ok tt ->
  snd (composite c wm t fr) = Ok fr' ->
  stdin_write_error e (i + List.length pre) (np.tostring fr') = Some cause ->
  stream_frames e c wm cb nframes i count (pre ++ (t, fr) :: post)
  = (fst (stream_frames e c wm cb nframes i count pre), Raised (IOError cause)).
Proof.
  induction pre as [|[t0 fr0] pre IH]; intros i count Hpre Hc Hw.
  - simpl in Hw. rewrite Nat.add_0_r in Hw.
    cbn [app]. rewrite stream_frames_cons, Hc, Hw. reflexivity.
  - cbn [app]. rewrite stream_frames_cons in Hpre. rewrite !stream_frames_cons.
    destruct (snd (composite c wm t0 fr0)) as [fr0'|]; [|discriminate Hpre].
    destruct (stdin_write_error e i (np.tostring fr0')); [discriminate Hpre|].
    cbn [fst snd] in *.
    rewrite (IH (S i) (count + 1) Hpre Hc).
    + reflexivity.
    + cbn [List.length] in Hw. rewrite <- Hw. f_equal. lia.
Qed.

(** A loop that ends normally has written every frame once. *)
Lemma stream_frames_Ok_writes e c wm cb nframes frames : forall i count,
  snd (stream_frames e c wm cb nframes i count frames) = Ok tt ->
  List.length (writes (fst (stream_frames e c wm cb nframes i count frames)))
  = List.length frames.
Proof.
  induction frames as [|[t fr] rest IH]; intros i count H; [reflexivity|].
  rewrite stream_frames_cons in H. rewrite stream_frames_cons.
  destruct (snd (composite c wm t fr)) as [fr'|]; [|discriminate H].
  destruct (stdin_write_error e i (np.tostring fr')); [discriminate H|].
  cbn [fst snd] in *.
  change (StdinWrite (np.tostring fr') :: ?l) with ([StdinWrite (np.tostring fr')] ++ l).
  rewrite !writes_app, !length_app, (IH _ _ H).
  destruct (callable cb); reflexivity.
Qed.

(** C7. If the pipeline was launched, the frames before some frame were
    written, and the write of that frame on the entry pipe raises an
    I/O error with text [cause], then [write_gif] raises [IOError] with a
    message that contains the destination filename and [cause]; the
    buffers written are those of the frames before, each once: the
    failing frame is not written again and no later frame is written. *)
Theorem write_gif_write_failure_aborts e c filename fps program opt fuzz
        verbose withmask loop dispose colors progress_bar progress_cb
        pre t fr fr' post cause :
  Qeq_bool fps 0 = false ->
  let wm := effective_withmask c withmask in
  let nframes := Py.int (duration c * fps) + 1 in
  snd (launch_pipeline e c filename fps program opt fuzz wm loop dispose
                       colors (100 / fps)%Q) = Ok tt ->
  iter_frames c fps = pre ++ (t, fr) :: post ->
  snd (stream_frames e c wm progress_cb nframes 0 1 pre) = Ok tt ->
  snd (composite c wm t fr) = Ok fr' ->
  stdin_write_error e (List.length pre) (np.tostring fr') = Some cause ->
  let r := write_gif e c filename fps program opt fuzz verbose withmask loop
                     dispose colors progress_bar progress_cb in
  snd r = Raised (IOError (write_gif_error filename program cause))
  /\ contains filename (write_gif_error filename program cause)
  /\ contains cause (write_gif_error filename program cause)
  /\ writes (fst r) = writes (fst (stream_frames e c wm progress_cb nframes 0 1 pre))
  /\ List.length (writes (fst r)) = List.length pre.
Proof.
  intros Hfps wm nframes HL Hframes Hpre Hc Hw r.
  assert (Hr : r = (fst (launch_pipeline e c filename fps program opt fuzz wm
                           loop dispose colors (100 / fps)%Q)
                      ++ banner verbose filename
                      ++ fst (stream_frames e c wm progress_cb nframes 0 1 pre),
                    Raised (IOError (write_gif_error filename program cause)))).
  { subst r. rewrite write_gif_run by exact Hfps.
    fold wm. fold nframes. rewrite HL, Hframes.
    rewrite (stream_frames_write_fails e c wm progress_cb nframes t fr fr' post
               cause pre 0 1 Hpre Hc Hw).
    reflexivity. }
  assert (Hwr : writes (fst r)
                = writes (fst (stream_frames e c wm progress_cb nframes 0 1 pre))).
  { rewrite Hr. cbn [fst]. rewrite !writes_app.
    pose proof (launch_pipeline_shape e c filename fps program opt fuzz wm loop
                  dispose colors (100 / fps)%Q) as [HLs _].
    apply only_launches in HLs as (HLw & _).
    pose proof (banner_prints verbose filename) as HB.
    apply only_prints in HB as (HBw & _).
    rewrite HLw, HBw. reflexivity. }
  repeat split.
  - rewrite Hr. reflexivity.
  - apply write_gif_error_contains_filename.
  - apply write_gif_error_contains_cause.
  - exact Hwr.
  - rewrite Hwr. apply stream_frames_Ok_writes. exact Hpre.
Qed.

Lemma write_gif_write_failure_aborts_witness :
  let r := write_gif Faulty.broken_pipe Sample.opaque "out.gif" 2 "ImageMagick"
                     (Py.PyStr "OptimizeTransparency") 1 false true 0 true None
                     true Callable in
  snd r = Raised (IOError (write_gif_error "out.gif" "ImageMagick"
                                           "[Errno 32] Broken pipe"))
  /\ contains "out.gif" (write_gif_error "out.gif" "ImageMagick"
                                         "[Errno 32] Broken pipe")
  /\ contains "[Errno 32] Broken pipe"
              (write_gif_error "out.gif" "ImageMagick" "[Errno 32] Broken pipe")
  /\ writes (fst r) = [[0; 0; 0]]
  /\ List.length (writes (fst r)) = 1%nat.
Proof.
  apply (write_gif_write_failure_aborts
           Faulty.broken_pipe Sample.opaque "out.gif" 2 "ImageMagick"
           (Py.PyStr "OptimizeTransparency") 1 false true 0 true None true
           Callable [(0%Q, Sample.black)] (1 # 2)%Q Sample.grey Sample.grey []
           "[Errno 32] Broken pipe");
    reflexivity.
Defined.

(** ** Shutdown *)

Lemma shutdown_trace program opt verbose filename :
  let tr := fst (shutdown program opt verbose filename) in
  closes tr = [1%nat]
  /\ waits tr = (if (program =? "ImageMagick")%string
                 then if Py.truthy opt then [1; 2; 3] else [1; 2]
                 else [1])%nat
  /\ launches tr = [] /\ writes tr = [] /\ callbacks tr = [].
Proof.
  unfold shutdown.
  destruct (program =? "ImageMagick")%string, (Py.truthy opt), verbose;
    repeat split; reflexivity.
Qed.

(** When every launch succeeds the processes launched are the ones the
    shutdown waits for. *)
Lemma launch_pipeline_Ok_launched e c filename fps program opt fuzz wm loop
      dispose colors delay :
  snd (launch_pipeline e c filename fps program opt fuzz wm loop dispose colors
                       delay) = Ok tt ->
  launched (fst (launch_pipeline e c filename fps program opt fuzz wm loop
                                 dispose colors delay))
  = (if (program =? "ImageMagick")%string
     then if Py.truthy opt then [1; 2; 3] else [1; 2]
     else [1])%nat.
Proof.
  unfold launch_pipeline, sp_Popen.
  destruct (program =? "ffmpeg")%string;
    destruct (program =? "ImageMagick")%string;
    destruct (Py.in_False_None opt);
    destruct (Py.truthy opt) eqn:Ht;
    repeat match goal with
           | |- context [popen_error ?e ?cmd] =>
               destruct (popen_error e cmd)
           end;
    simpl; try discriminate; try reflexivity;
    destruct opt; simpl in *; try discriminate;
    repeat match goal with
           | |- context [popen_error ?e ?cmd] =>
               destruct (popen_error e cmd)
           end;
    simpl; try discriminate; reflexivity.
Qed.

(** C1 (amended). A call of [write_gif] that returns has closed the stdin
    of process 1 once and waited once for every process it launched, in
    launch order, before returning.  A call that ends with the [IOError]
    of the streaming handler has closed nothing and waited for nothing:
    the handler raises at once and the shutdown lines are not reached. *)
Theorem write_gif_shutdown_only_on_success e c filename fps program opt fuzz
        verbose withmask loop dispose colors progress_bar progress_cb :
  let r := write_gif e c filename fps program opt fuzz verbose withmask loop
                     dispose colors progress_bar progress_cb in
  match snd r with
  | Ok _ => closes (fst r) = [1%nat] /\ waits (fst r) = launched (fst r)
  | Raised (IOError _) => closes (fst r) = [] /\ waits (fst r) = []
  | Raised _ => True
  end.
Proof.
  intros r. subst r.
  destruct (Qeq_bool fps 0) eqn:Hfps.
  { unfold write_gif, truediv. rewrite Hfps. exact I. }
  rewrite write_gif_run by exact Hfps.
  set (wm := effective_withmask c withmask).
  set (L := launch_pipeline _ _ _ _ _ _ _ _ _ _ _ _).
  set (S := stream_frames _ _ _ _ _ _ _ _).
  pose proof (launch_pipeline_shape e c filename fps program opt fuzz wm loop
                dispose colors (100 / fps)%Q) as [HL _].
  fold L in HL. apply only_launches in HL as (_ & _ & HLw & HLc & _).
  pose proof (launch_pipeline_Ok_launched e c filename fps program opt fuzz wm
                loop dispose colors (100 / fps)%Q) as HLo.
  fold L in HLo.
  pose proof (banner_prints verbose filename) as HB.
  apply only_prints in HB as (_ & _ & HBw & HBc & HBl & _).
  pose proof (stream_frames_events e c wm progress_cb
                (Py.int (duration c * fps) + 1) (iter_frames c fps) 0%nat 1)
    as HS.
  fold S in HS. apply only_stream_events in HS as (HSw & HSc & HSl).
  destruct (shutdown_trace program opt verbose filename)
    as (HDc & HDw & HDl & _).
  cbv zeta in HDc, HDw, HDl.
  destruct (snd L) as [[]|ex].
  - destruct (snd S) as [[]|ex]; [|destruct ex; cbn [fst snd]; try exact I].
    + cbn [fst snd].
      rewrite !closes_app, !waits_app, !launched_app.
      unfold launched at 2 3 4. rewrite HBl, HSl, HDl.
      rewrite HLw, HLc, HBw, HBc, HSw, HSc, HDc, HDw, (HLo eq_refl).
      cbn [map app]. rewrite app_nil_r. split; reflexivity.
    + rewrite !closes_app, !waits_app.
      rewrite HLw, HLc, HBw, HBc, HSw, HSc. split; reflexivity.
  - destruct ex; cbn [fst snd]; try exact I.
    split; assumption.
Qed.

(** The claim of C1 fails as stated: here the pipe breaks at the second
    frame; three processes were launched, the call raises [IOError], and
    no stdin was closed and no process waited for. *)
Lemma write_gif_failure_path_skips_shutdown :
  let r := write_gif Faulty.broken_pipe Sample.opaque "out.gif" 2 "ImageMagick"
                     (Py.PyStr "OptimizeTransparency") 1 false true 0 true None
                     true Callable in
  snd r = Raised (IOError (write_gif_error "out.gif" "ImageMagick"
                                           "[Errno 32] Broken pipe"))
  /\ launched (fst r) = [1; 2; 3]%nat
  /\ writes (fst r) = [[0; 0; 0]]
  /\ closes (fst r) = []
  /\ waits (fst r) = [].
Proof.
  vm_compute. repeat split.
Qed.

(** On the success path of the same call the shutdown does run. *)
Example write_gif_success_path_shutdown :
  let r := write_gif Sample.e Sample.opaque "out.gif" 2 "ImageMagick"
                     (Py.PyStr "OptimizeTransparency") 1 false true 0 true None
                     true Callable in
  snd r = Ok tt
  /\ launched (fst r) = [1; 2; 3]%nat
  /\ closes (fst r) = [1%nat]
  /\ waits (fst r) = [1; 2; 3]%nat.
Proof.
  vm_compute. repeat split.
Qed.

(** ** A launch that fails *)

(** C3 (amended). If a launch raises while the pipeline is built, then
    [write_gif] ends at once with that exception.  The run consists of
    the launches that succeeded before, processes 1 to k-1, and of
    nothing else: these processes are neither closed nor waited for, and
    no frame is written. *)
Theorem write_gif_launch_failure_propagates e c filename fps program opt fuzz
        verbose withmask loop dispose colors progress_bar progress_cb tr ex :
  Qeq_bool fps 0 = false ->
  launch_pipeline e c filename fps program opt fuzz
                  (effective_withmask c withmask) loop dispose colors
                  (100 / fps)%Q = (tr, Raised ex) ->
  write_gif e c filename fps program opt fuzz verbose withmask loop dispose
            colors progress_bar progress_cb = (tr, Raised ex)
  /\ launched tr = seq 1 (List.length tr)
  /\ waits tr = [] /\ closes tr = [] /\ writes tr = [].
Proof.
  intros Hfps HL.
  pose proof (launch_pipeline_shape e c filename fps program opt fuzz
                (effective_withmask c withmask) loop dispose colors
                (100 / fps)%Q) as [Hl Hs].
  cbv zeta in Hl, Hs. rewrite HL in Hl, Hs. cbn [fst] in Hl, Hs.
  apply only_launches in Hl as (Hw & _ & Hwt & Hc & _).
  rewrite write_gif_run by exact Hfps. rewrite HL. cbn [fst snd].
  repeat split; assumption.
Qed.

Lemma write_gif_launch_failure_propagates_witness :
  write_gif Faulty.no_ImageMagick Sample.opaque "out.gif" 2 "ImageMagick"
            (Py.PyStr "OptimizeTransparency") 1 false true 0 true None true
            Callable
  = ([Popen 1 (cmd1 Faulty.no_ImageMagick Sample.opaque 2 false
                 ++ ["-f"; "image2pipe"; "-vcodec"; "bmp"; "-"])
            (mk_popen_params PIPE DEVNULL PIPE None)],
     Raised (OSError "[Errno 2] No such file or directory"))
  /\ launched [Popen 1 (cmd1 Faulty.no_ImageMagick Sample.opaque 2 false
                          ++ ["-f"; "image2pipe"; "-vcodec"; "bmp"; "-"])
                     (mk_popen_params PIPE DEVNULL PIPE None)] = seq 1 1
  /\ waits [Popen 1 (cmd1 Faulty.no_ImageMagick Sample.opaque 2 false
                       ++ ["-f"; "image2pipe"; "-vcodec"; "bmp"; "-"])
                  (mk_popen_params PIPE DEVNULL PIPE None)] = []
  /\ closes [Popen 1 (cmd1 Faulty.no_ImageMagick Sample.opaque 2 false
                        ++ ["-f"; "image2pipe"; "-vcodec"; "bmp"; "-"])
                   (mk_popen_params PIPE DEVNULL PIPE None)] = []
  /\ writes [Popen 1 (cmd1 Faulty.no_ImageMagick Sample.opaque 2 false
                        ++ ["-f"; "image2pipe"; "-vcodec"; "bmp"; "-"])
                   (mk_popen_params PIPE DEVNULL PIPE None)] = [].
Proof.
  apply (write_gif_launch_failure_propagates
           Faulty.no_ImageMagick Sample.opaque "out.gif" 2 "ImageMagick"
           (Py.PyStr "OptimizeTransparency") 1 false true 0 true None true
           Callable); reflexivity.
Defined.

(** The claim of C3 fails as stated: ImageMagick is missing, process 2
    cannot be launched, the error reaches the caller, and process 1, which
    was launched, has not been waited for. *)
Lemma write_gif_launch_failure_leaks_process :
  let r := write_gif Faulty.no_ImageMagick Sample.opaque "out.gif" 2
                     "ImageMagick" (Py.PyStr "OptimizeTransparency") 1 false
                     true 0 true None true Callable in
  snd r = Raised (OSError "[Errno 2] No such file or directory")
  /\ launched (fst r) = [1%nat]
  /\ waits (fst r) = []
  /\ closes (fst r) = [].
Proof.
  vm_compute. repeat split.
Qed.

(** ** How many processes *)

(** When every launch succeeds: one process with any program other than
    ['ImageMagick'] (so with ['ffmpeg']), two with ['ImageMagick'] and a
    false [opt], three with ['ImageMagick'] and a true [opt]. *)
Lemma write_gif_launched e c filename fps program opt fuzz verbose withmask
      loop dispose colors progress_bar progress_cb :
  Qeq_bool fps 0 = false ->
  snd (launch_pipeline e c filename fps program opt fuzz
                       (effective_withmask c withmask) loop dispose colors
                       (100 / fps)%Q) = Ok tt ->
  launched (fst (write_gif e c filename fps program opt fuzz verbose withmask
                           loop dispose colors progress_bar progress_cb))
  = (if (program =? "ImageMagick")%string
     then if Py.truthy opt then [1; 2; 3] else [1; 2]
     else [1])%nat.
Proof.
  intros Hfps HL.
  rewrite write_gif_run by exact Hfps.
  rewrite HL.
  pose proof (banner_prints verbose filename) as HB.
  apply only_prints in HB as (_ & _ & _ & _ & HBl & _).
  pose proof (stream_frames_events e c (effective_withmask c withmask)
                progress_cb (Py.int (duration c * fps) + 1)
                (iter_frames c fps) 0%nat 1) as HS.
  apply only_stream_events in HS as (_ & _ & HSl).
  destruct (shutdown_trace program opt verbose filename) as (_ & _ & HDl & _).
  cbv zeta in HDl.
  rewrite <- (launch_pipeline_Ok_launched _ _ _ _ _ _ _ _ _ _ _ _ HL).
  destruct (snd (stream_frames _ _ _ _ _ _ _ _)) as [[]|ex];
    [|destruct ex]; cbn [fst];
    rewrite !launched_app; unfold launched at 2 3 4;
    rewrite ?HBl, ?HSl, ?HDl; cbn [map]; rewrite ?app_nil_r; reflexivity.
Qed.

(** With ['ImageMagick'] and [opt] equal to [False] or [None], process 2
    is given the destination file. *)
Lemma launch_pipeline_two_stages e c filename fps opt fuzz wm loop dispose
      colors delay :
  Py.in_False_None opt = true ->
  snd (launch_pipeline e c filename fps "ImageMagick" opt fuzz wm loop dispose
                       colors delay) = Ok tt ->
  launches (fst (launch_pipeline e c filename fps "ImageMagick" opt fuzz wm
                                 loop dispose colors delay))
  = [(1%nat, cmd1 e c fps wm ++ ["-f"; "image2pipe"; "-vcodec"; "bmp"; "-"],
      set_stdout PIPE (set_stdin PIPE (popen_params0 e)));
     (2%nat, cmd2 e delay dispose loop ++ [filename],
      set_stdout DEVNULL
        (set_stdin (stdout_of 1)
           (set_stdout PIPE (set_stdin PIPE (popen_params0 e)))))].
Proof.
  intros Hopt.
  assert (Ht : Py.truthy opt = false)
    by (destruct opt as [|[]|z|s]; simpl in *; try discriminate;
        try reflexivity; rewrite Hopt; reflexivity).
  unfold launch_pipeline, sp_Popen. cbn [String.eqb Ascii.eqb Bool.eqb].
  rewrite Hopt, Ht.
  destruct (popen_error e (cmd1 e c fps wm ++ _)); [discriminate|].
  destruct (popen_error e (cmd2 e delay dispose loop ++ _)); [discriminate|].
  reflexivity.
Qed.

(** With ['ImageMagick'] and a non-empty string as [opt], process 3 is
    given the destination file. *)
Lemma launch_pipeline_three_stages e c filename fps s fuzz wm loop dispose
      colors delay :
  s <> "" ->
  snd (launch_pipeline e c filename fps "ImageMagick" (Py.PyStr s) fuzz wm loop
                       dispose colors delay) = Ok tt ->
  launches (fst (launch_pipeline e c filename fps "ImageMagick" (Py.PyStr s)
                                 fuzz wm loop dispose colors delay))
  = [(1%nat, cmd1 e c fps wm ++ ["-f"; "image2pipe"; "-vcodec"; "bmp"; "-"],
      set_stdout PIPE (set_stdin PIPE (popen_params0 e)));
     (2%nat, cmd2 e delay dispose loop ++ ["gif:-"],
      set_stdout PIPE
        (set_stdin (stdout_of 1)
           (set_stdout PIPE (set_stdin PIPE (popen_params0 e)))));
     (3%nat, cmd3 e s fuzz colors filename,
      set_stdout DEVNULL
        (set_stdin (stdout_of 2)
           (set_stdout PIPE
              (set_stdin (stdout_of 1)
                 (set_stdout PIPE (set_stdin PIPE (popen_params0 e)))))))].
Proof.
  intros Hs.
  apply String.eqb_neq in Hs.
  unfold launch_pipeline, sp_Popen. cbn [String.eqb Ascii.eqb Bool.eqb].
  cbn [Py.in_False_None Py.truthy]. rewrite Hs. cbn [negb].
  destruct (popen_error e (cmd1 e c fps wm ++ _)); [discriminate|].
  destruct (popen_error e (cmd2 e delay dispose loop ++ _)); [discriminate|].
  destruct (popen_error e (cmd3 e s fuzz colors filename)); [discriminate|].
  reflexivity.
Qed.

(** C4, at [program = 'ImageMagick'] and [opt = ''].  The empty string is
    not in [[False, None]], so process 2 is launched with output
    ['gif:-'] on a pipe; it is false, so no process 3 is launched.  Two
    processes run, and none of them is given the destination file. *)
Theorem write_gif_empty_opt_two_stages :
  let r := write_gif Sample.e Sample.opaque "out.gif" 2 "ImageMagick"
                     (Py.PyStr "") 1 false true 0 true None true NotCallable in
  Py.in_False_None (Py.PyStr "") = false
  /\ snd r = Ok tt
  /\ launches (fst r)
     = [(1%nat,
         ["ffmpeg"; "-y"; "-loglevel"; "error"; "-f"; "rawvideo";
          "-vcodec"; "rawvideo"; "-r"; "2.00"; "-s"; "1x1";
          "-pix_fmt"; "rgb24"; "-i"; "-";
          "-f"; "image2pipe"; "-vcodec"; "bmp"; "-"],
         mk_popen_params PIPE DEVNULL PIPE None);
        (2%nat,
         ["convert"; "-delay"; "50.00"; "-dispose"; "2"; "-loop"; "0";
          "-"; "-coalesce"; "gif:-"],
         mk_popen_params PIPE DEVNULL (stdout_of 1) None)]
  /\ waits (fst r) = [1; 2]%nat.
Proof.
  vm_compute. repeat split.
Qed.

(** ** Progress callbacks *)

Lemma save_frames_run fileName cb total ts : forall i,
  snd (save_frames fileName cb total i ts)
  = Ok (map (tempfile_name fileName) (seq i (List.length ts)))
  /\ callbacks (fst (save_frames fileName cb total i ts))
     = (if callable cb
        then map (fun k => (Z.of_nat k + 1, total)) (seq i (List.length ts))
        else [])
  /\ calls (fst (save_frames fileName cb total i ts)) = [].
Proof.
  induction ts as [|t rest IH]; intros i.
  - destruct (callable cb); repeat split; reflexivity.
  - cbn [save_frames]. rewrite bind_emit.
    destruct (IH (S i)) as (Hr & Hc & Hs).
    destruct (save_frames fileName cb total (S i) rest) as [tr res].
    cbn [fst snd] in Hr, Hc, Hs. subst res.
    unfold callbacks, calls in *.
    destruct (callable cb); simpl; rewrite ?app_nil_r, Hc, Hs;
      repeat split; reflexivity.
Qed.

Lemma remove_all_run names :
  snd (remove_all names) = Ok tt
  /\ callbacks (fst (remove_all names)) = []
  /\ calls (fst (remove_all names)) = [].
Proof.
  induction names as [|f rest (Hr & Hc & Hs)]; [repeat split; reflexivity|].
  cbn [remove_all]. rewrite bind_emit. cbn [fst snd]. auto.
Qed.

Lemma calls_app tr1 tr2 : calls (tr1 ++ tr2) = calls tr1 ++ calls tr2.
Proof. apply flat_map_app. Qed.

(** The events of [write_gif_with_tempfiles]: every callback invocation
    comes from the loop over [tt], and the only command run, if any, is
    the one built for the program. *)
Lemma write_gif_with_tempfiles_events e c filename fps program opt fuzz verbose
      loop dispose colors progress_bar progress_cb :
  Qeq_bool fps 0 = false ->
  let fileName := fst (splitext e filename) in
  let total := Py.int (duration c * fps) + 1 in
  let tr := fst (write_gif_with_tempfiles e c filename fps program opt fuzz
                   verbose loop dispose colors progress_bar progress_cb) in
  callbacks tr
  = callbacks (fst (save_frames fileName progress_cb total 0
                                (np.arange 0 (duration c) (1 / fps)%Q)))
  /\ forall cmd, In cmd (calls tr) ->
       (program = "ImageMagick"
        /\ cmd = tempfiles_cmd_ImageMagick e fileName filename
                   (Py.int (100 / fps)%Q) dispose loop opt fuzz colors)
       \/ (program = "ffmpeg"
           /\ cmd = tempfiles_cmd_ffmpeg e fileName filename fps).
Proof.
  intros Hfps fileName total tr. subst tr.
  unfold write_gif_with_tempfiles, truediv. rewrite Hfps.
  fold fileName. fold total.
  rewrite bind_ret_l.
  destruct (save_frames_run fileName progress_cb total
              (np.arange 0 (duration c) (1 / fps)%Q) 0) as (HSr & _ & HSs).
  destruct (save_frames fileName progress_cb total 0
              (np.arange 0 (duration c) (1 / fps)%Q)) as [str sres].
  cbn [fst snd] in HSr, HSs |- *. subst sres.
  set (names := map (tempfile_name fileName) _).
  rewrite bind_Ok. cbv beta. rewrite !bind_ret_l. cbv beta.
  destruct (remove_all_run names) as (HRr & HRc & HRs).
  destruct (remove_all names) as [rtr rres].
  cbn [fst snd] in HRr, HRc, HRs. subst rres.
  unfold subprocess_call.
  destruct (String.eqb_spec program "ImageMagick") as [HIM|HIM];
    [|destruct (String.eqb_spec program "ffmpeg") as [HFF|HFF]];
    destruct verbose; simpl;
    try destruct (subprocess_call_error e _) eqn:Herr; simpl;
    rewrite ?callbacks_app, ?calls_app; simpl;
    rewrite ?HRc, ?HRs, ?HSs, ?app_nil_r;
    (split; [reflexivity|]); intros cmd Hin;
    try contradiction;
    destruct Hin as [<-|[]]; auto.
Qed.

Lemma progress_reports_seq total n : forall i,
  map (fun k => (Z.of_nat k + 1, total)) (seq i n)
  = progress_reports (Z.of_nat i + 1) n total.
Proof.
  induction n as [|n IH]; intros i; [reflexivity|].
  cbn [seq map progress_reports]. rewrite IH.
  do 2 f_equal. lia.
Qed.

(** [np.arange(0, duration, 1.0/fps)] has ceil(duration * fps) values. *)
Lemma arange_length (d fps : Q) :
  Qeq_bool fps 0 = false ->
  List.length (np.arange 0 d (1 / fps)%Q) = Z.to_nat (Qceiling (d * fps)).
Proof.
  intros Hfps.
  unfold np.arange. rewrite length_map, length_seq.
  f_equal. apply Qceiling_comp.
  assert (Hnz : ~ fps == 0) by (apply Qeq_bool_neq; exact Hfps).
  field. auto using Q_apart_0_1.
Qed.

(** In [write_gif_with_tempfiles] a callable callback is invoked once per
    saved frame, with 1, 2, ... as first argument and
    [int(duration * fps) + 1] as second; the number of invocations is the
    number of values of [tt], that is ceil(duration * fps). *)
Lemma write_gif_with_tempfiles_callbacks e c filename fps program opt fuzz
      verbose loop dispose colors progress_bar :
  Qeq_bool fps 0 = false ->
  callbacks (fst (write_gif_with_tempfiles e c filename fps program opt fuzz
                    verbose loop dispose colors progress_bar Callable))
  = progress_reports 1 (Z.to_nat (Qceiling (duration c * fps)))
                     (Py.int (duration c * fps) + 1).
Proof.
  intros Hfps.
  destruct (write_gif_with_tempfiles_events e c filename fps program opt fuzz
              verbose loop dispose colors progress_bar Callable Hfps)
    as [Hc _].
  cbv zeta in Hc. rewrite Hc.
  destruct (save_frames_run (fst (splitext e filename)) Callable
              (Py.int (duration c * fps) + 1)
              (np.arange 0 (duration c) (1 / fps)%Q) 0) as (_ & Hcb & _).
  rewrite Hcb. cbn [callable].
  rewrite progress_reports_seq, arange_length by exact Hfps.
  reflexivity.
Qed.

(** In the loop of [write_gif], when it ends normally, a callable callback
    has been invoked once per frame that the clip yielded, with [count],
    [count + 1], ... as first argument and [nframes] as second. *)
Lemma stream_frames_callbacks e c wm nframes frames : forall i count,
  snd (stream_frames e c wm Callable nframes i count frames) = Ok tt ->
  callbacks (fst (stream_frames e c wm Callable nframes i count frames))
  = progress_reports count (List.length frames) nframes.
Proof.
  induction frames as [|[t fr] rest IH]; intros i count H; [reflexivity|].
  rewrite stream_frames_cons in H. rewrite stream_frames_cons.
  destruct (snd (composite c wm t fr)) as [fr'|]; [|discriminate H].
  destruct (stdin_write_error e i (np.tostring fr')); [discriminate H|].
  cbn [fst snd callable] in *.
  cbn [List.length progress_reports].
  rewrite <- (IH _ _ H). reflexivity.
Qed.

Lemma write_gif_callbacks e c filename fps program opt fuzz verbose withmask
      loop dispose colors progress_bar :
  let r := write_gif e c filename fps program opt fuzz verbose withmask loop
                     dispose colors progress_bar Callable in
  snd r = Ok tt ->
  callbacks (fst r)
  = progress_reports 1 (List.length (iter_frames c fps))
                     (Py.int (duration c * fps) + 1).
Proof.
  intros r. subst r.
  destruct (Qeq_bool fps 0) eqn:Hfps.
  { unfold write_gif, truediv. rewrite Hfps. discriminate. }
  rewrite write_gif_run by exact Hfps.
  set (wm := effective_withmask c withmask).
  pose proof (launch_pipeline_shape e c filename fps program opt fuzz wm loop
                dispose colors (100 / fps)%Q) as [HL _].
  apply only_launches in HL as (_ & HLc & _).
  pose proof (banner_prints verbose filename) as HB.
  apply only_prints in HB as (_ & HBc & _).
  destruct (shutdown_trace program opt verbose filename) as (_ & _ & _ & _ & HDc).
  cbv zeta in HDc.
  pose proof (stream_frames_callbacks e c wm (Py.int (duration c * fps) + 1)
                (iter_frames c fps) 0%nat 1) as HS.
  destruct (snd (launch_pipeline _ _ _ _ _ _ _ _ _ _ _ _)) as [[]|ex];
    [|discriminate].
  destruct (snd (stream_frames _ _ _ _ _ _ _ _)) as [[]|ex];
    [|destruct ex; discriminate].
  intros _. cbn [fst].
  rewrite !callbacks_app, HLc, HBc, HDc, (HS eq_refl), app_nil_r.
  reflexivity.
Qed.

(** C2, at a clip of one second exported at one frame per second.
    [tt = np.arange(0, 1, 1.0)] has the single value 0 while
    [total = int(1 * 1) + 1 = 2]: [write_gif_with_tempfiles] invokes the
    callback once, with (1, 2), and never with (2, 2).  [write_gif] on a
    clip of one second that yields the two frames of times 0 and 1/2 at
    two frames per second invokes it with (1, 3) and (2, 3) only. *)
Theorem progress_total_exceeds_invocations :
  let r1 := write_gif_with_tempfiles Sample.e Sample.opaque "out.gif" 1
              "ImageMagick" (Py.PyStr "OptimizeTransparency") 1 false 0 true
              None false Callable in
  let r2 := write_gif Sample.e Sample.opaque "out.gif" 2 "ImageMagick"
              (Py.PyStr "OptimizeTransparency") 1 false true 0 true None false
              Callable in
  (snd r1 = Ok tt
   /\ Py.int (duration Sample.opaque * 1) + 1 = 2
   /\ callbacks (fst r1) = [(1, 2)])
  /\ (snd r2 = Ok tt
      /\ Py.int (duration Sample.opaque * 2) + 1 = 3
      /\ callbacks (fst r2) = [(1, 3); (2, 3)]).
Proof.
  vm_compute. repeat split.
Qed.

(** ** Compositing the mask *)









(** ** The commands launched *)


Lemma write_gif_launches e c filename fps program opt fuzz verbose withmask
      loop dispose colors progress_bar progress_cb :
  Qeq_bool fps 0 = false ->
  launches (fst (write_gif e c filename fps program opt fuzz verbose withmask
                           loop dispose colors progress_bar progress_cb))
  = launches (fst (launch_pipeline e c filename fps program opt fuzz
                                   (effective_withmask c withmask) loop dispose
                                   colors (100 / fps)%Q)).
Proof.
  intros Hfps.
  rewrite write_gif_run by exact Hfps.
  pose proof (banner_prints verbose filename) as HB.
  apply only_prints in HB as (_ & _ & _ & _ & HBl & _).
  pose proof (stream_frames_events e c (effective_withmask c withmask)
                progress_cb (Py.int (duration c * fps) + 1)
                (iter_frames c fps) 0%nat 1) as HS.
  apply only_stream_events in HS as (_ & _ & HSl).
  destruct (shutdown_trace program opt verbose filename) as (_ & _ & HDl & _).
  cbv zeta in HDl.
  destruct (snd (launch_pipeline _ _ _ _ _ _ _ _ _ _ _ _)) as [[]|ex];
    [|reflexivity].
  destruct (snd (stream_frames _ _ _ _ _ _ _ _)) as [[]|ex];
    [|destruct ex]; cbn [fst];
    rewrite !launches_app, ?HBl, ?HSl, ?HDl, ?app_nil_r; reflexivity.
Qed.

(** ** The delay between frames *)






(** ** A clip without mask *)




(** The run of the witness, in full: two buffers of three samples. *)
Example write_gif_without_mask_run :
  write_gif Sample.e Sample.opaque "out.gif" 2 "ffmpeg" Py.PyNone 1 false true
            0 true None false NotCallable
  = ([Popen 1 ["ffmpeg"; "-y"; "-loglevel"; "error"; "-f"; "rawvideo";
               "-vcodec"; "rawvideo"; "-r"; "2.00"; "-s"; "1x1";
               "-pix_fmt"; "rgb24"; "-i"; "-";
               "-pix_fmt"; "rgb24"; "-r"; "2.00"; "out.gif"]
            (mk_popen_params DEVNULL DEVNULL PIPE None);
      StdinWrite [0; 0; 0];
      StdinWrite [128; 128; 128];
      StdinClose 1;
      Wait 1],
     Ok tt).
Proof.
  vm_compute. reflexivity.
Qed.

(** * Further properties of the exporters *)

(** ** What the streaming loop has done when it stops *)

(** However the loop ends, it has gone through a prefix of the frames:
    the buffers written are those of the first [n] frames, in order, the
    callback was invoked for each of them, and [n] is the number of
    frames when the loop ends normally. *)
Lemma stream_frames_prefix e c wm cb nframes frames : forall i count,
  let S := stream_frames e c wm cb nframes i count frames in
  exists n,
    (n <= List.length frames)%nat
    /\ map Some (writes (fst S)) = map (buffer_of c wm) (firstn n frames)
    /\ callbacks (fst S)
       = (if callable cb then progress_reports count n nframes else [])
    /\ (snd S = Ok tt -> n = List.length frames).
Proof.
  induction frames as [|[t fr] rest IH]; intros i count; cbv zeta.
  - exists 0%nat. destruct (callable cb); repeat split; auto.
  - rewrite stream_frames_cons.
    destruct (snd (composite c wm t fr)) as [fr'|ex] eqn:Hc.
    + destruct (stdin_write_error e i (np.tostring fr')).
      * exists 0%nat. cbn [fst snd List.length].
        destruct (callable cb); repeat split; try lia; discriminate.
      * destruct (IH (S i) (count + 1)) as (n & Hn & Hw & Hcb & Hok).
        exists (S n). cbn [fst snd List.length firstn map].
        change (StdinWrite (np.tostring fr') :: ?l)
          with ([StdinWrite (np.tostring fr')] ++ l).
        rewrite !writes_app, !callbacks_app, !map_app, Hw, Hcb.
        change (buffer_of c wm (t, fr))
          with (match snd (composite c wm t fr) with
                | Ok fr0 => Some (np.tostring fr0)
                | Raised _ => None
                end).
        rewrite Hc.
        destruct (callable cb); cbn [progress_reports];
          repeat split; try lia; try reflexivity;
          intros H; rewrite (Hok H); reflexivity.
    + exists 0%nat. cbn [fst snd List.length].
      destruct (callable cb); repeat split; try lia; discriminate.
Qed.

(** The writes and callback invocations of a run of [write_gif] are
    those of its streaming loop, when the launches succeeded. *)
Lemma write_gif_stream_events e c filename fps program opt fuzz verbose
      withmask loop dispose colors progress_bar progress_cb :
  Qeq_bool fps 0 = false ->
  let wm := effective_withmask c withmask in
  let L := launch_pipeline e c filename fps program opt fuzz wm loop dispose
                           colors (100 / fps)%Q in
  let S := stream_frames e c wm progress_cb (Py.int (duration c * fps) + 1)
                         0 1 (iter_frames c fps) in
  let r := write_gif e c filename fps program opt fuzz verbose withmask loop
                     dispose colors progress_bar progress_cb in
  match snd L with
  | Ok _ => writes (fst r) = writes (fst S)
            /\ callbacks (fst r) = callbacks (fst S)
            /\ (snd r = Ok tt -> snd S = Ok tt)
  | Raised _ => writes (fst r) = [] /\ callbacks (fst r) = []
                /\ snd r <> Ok tt
  end.
Proof.
  intros Hfps wm L S r. subst r.
  rewrite write_gif_run by exact Hfps. fold wm. fold L. fold S.
  pose proof (launch_pipeline_shape e c filename fps program opt fuzz wm loop
                dispose colors (100 / fps)%Q) as [HL _].
  fold L in HL. apply only_launches in HL as (HLw & HLc & _).
  pose proof (banner_prints verbose filename) as HB.
  apply only_prints in HB as (HBw & HBc & _).
  destruct (shutdown_trace program opt verbose filename)
    as (_ & _ & _ & HDw & HDc).
  cbv zeta in HDw, HDc.
  destruct (snd L) as [[]|ex]; [|repeat split; auto; discriminate].
  destruct (snd S) as [[]|ex]; [|destruct ex]; cbn [fst snd];
    rewrite !writes_app, !callbacks_app, ?HLw, ?HLc, ?HBw, ?HBc, ?HDw, ?HDc,
      ?app_nil_r;
    repeat split; auto; discriminate.
Qed.




(** ** How the processes are wired *)

Lemma launch_pipeline_wiring e c filename fps program opt fuzz wm loop dispose
      colors delay :
  forall p cmd params,
    In (p, cmd, params)
       (launches (fst (launch_pipeline e c filename fps program opt fuzz wm
                                       loop dispose colors delay))) ->
    stderr params = DEVNULL
    /\ creationflags params
       = (if (os_name e =? "nt")%string then Some 134217728 else None)
    /\ stdin params = (if (p =? 1)%nat then PIPE else stdout_of (p - 1))
    /\ (stdout params = DEVNULL \/ stdout params = PIPE).
Proof.
  unfold launch_pipeline, sp_Popen, popen_params0.
  destruct (os_name e =? "nt")%string;
    destruct (program =? "ffmpeg")%string;
    destruct (program =? "ImageMagick")%string;
    destruct (Py.in_False_None opt);
    destruct (Py.truthy opt);
    repeat match goal with
           | |- context [popen_error ?e ?cmd] =>
               destruct (popen_error e cmd)
           end;
    try destruct opt; simpl;
    repeat match goal with
           | |- context [popen_error ?e ?cmd] =>
               destruct (popen_error e cmd)
           end;
    simpl;
    intros p cmd params Hin;
    repeat (destruct Hin as [Hin|Hin];
            [injection Hin as <- <- <-; simpl; auto|]);
    contradiction.
Qed.

(** X3. Every process [write_gif] launches has its stderr on the null
    device; process 1 reads the pipe the frames are written to and each
    later process reads the stdout of the process before it; stdout is
    a pipe or the null device; and the flag that hides the console
    window is set on every process exactly when the platform is
    Windows. *)
Theorem write_gif_wiring e c filename fps program opt fuzz verbose withmask
        loop dispose colors progress_bar progress_cb p cmd params :
  In (p, cmd, params)
     (launches (fst (write_gif e c filename fps program opt fuzz verbose
                               withmask loop dispose colors progress_bar
                               progress_cb))) ->
  stderr params = DEVNULL
  /\ creationflags params
     = (if (os_name e =? "nt")%string then Some 134217728 else None)
  /\ stdin params = (if (p =? 1)%nat then PIPE else stdout_of (p - 1))
  /\ (stdout params = DEVNULL \/ stdout params = PIPE).
Proof.
  destruct (Qeq_bool fps 0) eqn:Hfps.
  { unfold write_gif, truediv. rewrite Hfps. intros []. }
  rewrite write_gif_launches by exact Hfps.
  apply launch_pipeline_wiring.
Qed.

Lemma write_gif_wiring_witness :
  stderr (mk_popen_params DEVNULL DEVNULL (stdout_of 1) None) = DEVNULL
  /\ creationflags (mk_popen_params DEVNULL DEVNULL (stdout_of 1) None)
     = (if (os_name Sample.e =? "nt")%string then Some 134217728 else None)
  /\ stdin (mk_popen_params DEVNULL DEVNULL (stdout_of 1) None)
     = (if (2 =? 1)%nat then PIPE else stdout_of (2 - 1))
  /\ (stdout (mk_popen_params DEVNULL DEVNULL (stdout_of 1) None) = DEVNULL
      \/ stdout (mk_popen_params DEVNULL DEVNULL (stdout_of 1) None) = PIPE).
Proof.
  apply (write_gif_wiring Sample.e Sample.opaque "out.gif" 15 "ImageMagick"
                          Py.PyNone 1 false true 0 true None false NotCallable
                          2%nat
                          ["convert"; "-delay"; "6.67"; "-dispose"; "2";
                           "-loop"; "0"; "-"; "-coalesce"; "out.gif"]).
  vm_compute. right. left. reflexivity.
Defined.

(** ** Where the GIF is written *)

(** X4. When all launches succeed and the program is ['ffmpeg'], or
    ['ImageMagick'] with [opt] in [[False, None]] or with a non-empty
    string as [opt], the last process launched is given the destination
    filename as its last argument and its stdout goes to the null
    device, and every process before it has its stdout on a pipe. *)
Theorem write_gif_last_stage_writes_destination e c filename fps program opt
        fuzz verbose withmask loop dispose colors progress_bar progress_cb :
  Qeq_bool fps 0 = false ->
  snd (launch_pipeline e c filename fps program opt fuzz
                       (effective_withmask c withmask) loop dispose colors
                       (100 / fps)%Q) = Ok tt ->
  program = "ffmpeg"
  \/ (program = "ImageMagick"
      /\ (Py.in_False_None opt = true
          \/ exists s, opt = Py.PyStr s /\ s <> "")) ->
  exists front p cmd params,
    launches (fst (write_gif e c filename fps program opt fuzz verbose withmask
                             loop dispose colors progress_bar progress_cb))
    = front ++ [(p, cmd ++ [filename], params)]
    /\ stdout params = DEVNULL
    /\ Forall (fun l => stdout (snd l) = PIPE) front.
Proof.
  intros Hfps HL Hcfg.
  rewrite write_gif_launches by exact Hfps.
  set (wm := effective_withmask c withmask) in *.
  destruct Hcfg as [-> | [-> [Hopt | (s & -> & Hs)]]].
  - rewrite launch_pipeline_ffmpeg in *. unfold sp_Popen in *.
    destruct (popen_error e _); [discriminate HL|].
    exists [], 1%nat,
      (cmd1 e c fps wm ++ ["-pix_fmt"; pix_fmt wm; "-r"; Py.fmt_02f fps]),
      (set_stdout DEVNULL (set_stdin PIPE (popen_params0 e))).
    rewrite <- app_assoc. repeat split; constructor.
  - rewrite (launch_pipeline_two_stages _ _ _ _ _ _ _ _ _ _ _ Hopt HL).
    eexists [_], 2%nat, _, _.
    split; [reflexivity|]. split; [reflexivity|].
    repeat constructor.
  - rewrite (launch_pipeline_three_stages _ _ _ _ _ _ _ _ _ _ _ Hs HL).
    exists [(1%nat,
             cmd1 e c fps wm ++ ["-f"; "image2pipe"; "-vcodec"; "bmp"; "-"],
             set_stdout PIPE (set_stdin PIPE (popen_params0 e)));
            (2%nat, cmd2 e (100 / fps)%Q dispose loop ++ ["gif:-"],
             set_stdout PIPE
               (set_stdin (stdout_of 1)
                  (set_stdout PIPE (set_stdin PIPE (popen_params0 e)))))],
      3%nat,
      ([IMAGEMAGICK_BINARY e; "-"; "-layers"; s;
        "-fuzz"; (Py.fmt_d fuzz ++ "%")%string]
         ++ match colors with
            | Some n => ["-colors"; Py.fmt_d n]
            | None => []
            end),
      (set_stdout DEVNULL
         (set_stdin (stdout_of 2)
            (set_stdout PIPE
               (set_stdin (stdout_of 1)
                  (set_stdout PIPE (set_stdin PIPE (popen_params0 e))))))).
    split; [|split; [reflexivity|repeat constructor]].
    unfold cmd3. rewrite <- app_assoc. reflexivity.
Qed.

Lemma write_gif_last_stage_writes_destination_witness :
  exists front p cmd params,
    launches (fst (write_gif Sample.e Sample.opaque "out.gif" 2 "ImageMagick"
                             (Py.PyStr "OptimizeTransparency") 1 false true 0
                             true (Some 64) false NotCallable))
    = front ++ [(p, cmd ++ ["out.gif"], params)]
    /\ stdout params = DEVNULL
    /\ Forall (fun l => stdout (snd l) = PIPE) front.
Proof.
  apply (write_gif_last_stage_writes_destination
           Sample.e Sample.opaque "out.gif" 2 "ImageMagick"
           (Py.PyStr "OptimizeTransparency") 1 false true 0 true (Some 64)
           false NotCallable).
  - reflexivity.
  - reflexivity.
  - right. split; [reflexivity|]. right.
    exists "OptimizeTransparency". split; [reflexivity|discriminate].
Defined.

(** ** A program that is neither name *)

Lemma launch_pipeline_other_program e c filename fps program opt fuzz wm loop
      dispose colors delay :
  program <> "ffmpeg" -> program <> "ImageMagick" ->
  launch_pipeline e c filename fps program opt fuzz wm loop dispose colors delay
  = sp_Popen e 1 (cmd1 e c fps wm ++ ["-f"; "image2pipe"; "-vcodec"; "bmp"; "-"])
             (set_stdout PIPE (set_stdin PIPE (popen_params0 e))).
Proof.
  intros Hff HIM.
  apply String.eqb_neq in Hff, HIM.
  unfold launch_pipeline, sp_Popen. rewrite Hff, HIM.
  destruct (popen_error e _); reflexivity.
Qed.

(** X5. [write_gif] does not reject a program name that is neither
    ['ffmpeg'] nor ['ImageMagick']: all such names give the same run, in
    which the only process launched is process 1, converting the frames
    to a BMP stream on a pipe; no process is given the destination
    filename as output. *)
Theorem write_gif_unknown_program e c filename fps program program' opt fuzz
        verbose withmask loop dispose colors progress_bar progress_cb :
  program <> "ffmpeg" -> program <> "ImageMagick" ->
  program' <> "ffmpeg" -> program' <> "ImageMagick" ->
  let r := write_gif e c filename fps program opt fuzz verbose withmask loop
                     dispose colors progress_bar progress_cb in
  r = write_gif e c filename fps program' opt fuzz verbose withmask loop
                dispose colors progress_bar progress_cb
  /\ forall p cmd params, In (p, cmd, params) (launches (fst r)) ->
       p = 1%nat
       /\ cmd = cmd1 e c fps (effective_withmask c withmask)
                  ++ ["-f"; "image2pipe"; "-vcodec"; "bmp"; "-"]
       /\ stdout params = PIPE.
Proof.
  intros Hff HIM Hff' HIM' r. subst r. split.
  - unfold write_gif.
    destruct (truediv 100 fps) as [tr [delay|ex]]; [|reflexivity].
    rewrite !bind_Ok.
    rewrite (launch_pipeline_other_program e c filename fps program)
      by assumption.
    rewrite (launch_pipeline_other_program e c filename fps program')
      by assumption.
    apply String.eqb_neq in HIM, HIM'.
    unfold shutdown, write_gif_error. rewrite HIM, HIM'. reflexivity.
  - destruct (Qeq_bool fps 0) eqn:Hfps.
    { unfold write_gif, truediv. rewrite Hfps. intros p cmd params []. }
    rewrite write_gif_launches by exact Hfps.
    rewrite launch_pipeline_other_program by assumption.
    unfold sp_Popen. destruct (popen_error e _); intros p cmd params Hin.
    + destruct Hin.
    + destruct Hin as [Hin|[]]. injection Hin as <- <- <-.
      repeat split; reflexivity.
Qed.

Lemma write_gif_unknown_program_witness :
  let r := write_gif Sample.e Sample.opaque "out.gif" 2 "imagemagick" Py.PyNone
                     1 false true 0 true None false NotCallable in
  r = write_gif Sample.e Sample.opaque "out.gif" 2 "gifsicle" Py.PyNone 1 false
                true 0 true None false NotCallable
  /\ forall p cmd params, In (p, cmd, params) (launches (fst r)) ->
       p = 1%nat
       /\ cmd = cmd1 Sample.e Sample.opaque 2
                     (effective_withmask Sample.opaque true)
                  ++ ["-f"; "image2pipe"; "-vcodec"; "bmp"; "-"]
       /\ stdout params = PIPE.
Proof.
  apply (write_gif_unknown_program
           Sample.e Sample.opaque "out.gif" 2 "imagemagick" "gifsicle"
           Py.PyNone 1 false true 0 true None false NotCallable);
    discriminate.
Defined.

(** ** The order of the phases *)


(** ** Exceptions that the handler does not catch *)

(** X7. The handler of the streaming loop catches [IOError] only.  When
    the mask frame of some frame does not have the height and width of
    the frame, numpy's [ValueError] reaches the caller as it is: the
    frames before were written, the frame itself is not, and no process
    is closed or waited for. *)
Theorem write_gif_mask_shape_mismatch e c filename fps program opt fuzz verbose
        loop dispose colors progress_bar progress_cb get_frame pre t fr post :
  Qeq_bool fps 0 = false ->
  mask c = Some get_frame ->
  snd (launch_pipeline e c filename fps program opt fuzz true loop dispose
                       colors (100 / fps)%Q) = Ok tt ->
  iter_frames c fps = pre ++ (t, fr) :: post ->
  snd (stream_frames e c true progress_cb (Py.int (duration c * fps) + 1)
                     0 1 pre) = Ok tt ->
  np.dstack fr (np.scale 255 (get_frame t)) = None ->
  let r := write_gif e c filename fps program opt fuzz verbose true loop
                     dispose colors progress_bar progress_cb in
  snd r = Raised ValueError
  /\ List.length (writes (fst r)) = List.length pre
  /\ closes (fst r) = []
  /\ waits (fst r) = [].
Proof.
  intros Hfps Hmask HL Hframes Hpre Hd r. subst r.
  assert (Hwm : effective_withmask c true = true)
    by (unfold effective_withmask; rewrite Hmask; reflexivity).
  assert (HS : forall pre0 i count,
             snd (stream_frames e c true progress_cb
                    (Py.int (duration c * fps) + 1) i count pre0) = Ok tt ->
             stream_frames e c true progress_cb
               (Py.int (duration c * fps) + 1) i count
               (pre0 ++ (t, fr) :: post)
             = (fst (stream_frames e c true progress_cb
                       (Py.int (duration c * fps) + 1) i count pre0),
                Raised ValueError)).
  { induction pre0 as [|[t0 fr0] pre0 IH]; intros i count H0.
    - cbn [app]. rewrite stream_frames_cons.
      unfold composite. rewrite Hmask, Hd. reflexivity.
    - cbn [app]. rewrite stream_frames_cons in H0. rewrite !stream_frames_cons.
      destruct (snd (composite c true t0 fr0)) as [fr0'|]; [|discriminate H0].
      destruct (stdin_write_error e i (np.tostring fr0')); [discriminate H0|].
      cbn [fst snd] in *. rewrite (IH _ _ H0). reflexivity. }
  pose proof (launch_pipeline_shape e c filename fps program opt fuzz true loop
                dispose colors (100 / fps)%Q) as [HLs _].
  apply only_launches in HLs as (HLw & _ & HLwt & HLc & _).
  pose proof (banner_prints verbose filename) as HB.
  apply only_prints in HB as (HBw & _ & HBwt & HBc & _).
  pose proof (stream_frames_events e c true progress_cb
                (Py.int (duration c * fps) + 1) pre 0%nat 1) as HSe.
  apply only_stream_events in HSe as (HSwt & HSc & _).
  rewrite write_gif_run by exact Hfps.
  rewrite Hwm, HL, Hframes, (HS pre 0%nat 1 Hpre). cbn [fst snd].
  rewrite !writes_app, !closes_app, !waits_app.
  rewrite HLw, HLwt, HLc, HBw, HBwt, HBc, HSwt, HSc.
  repeat split.
  apply stream_frames_Ok_writes. exact Hpre.
Qed.

Lemma write_gif_mask_shape_mismatch_witness :
  let c := {| duration := 1; w := 1; h := 1;
              mask := Some (fun _ => [[(1 # 4)%Q; (1 # 4)%Q]]);
              iter_frames := fun _ => [(0%Q, Sample.black)] |} in
  let r := write_gif Sample.e c "out.gif" 1 "ffmpeg" Py.PyNone 1 false true 0
                     true None false NotCallable in
  snd r = Raised ValueError
  /\ List.length (writes (fst r)) = List.length (@nil (Q * frame))
  /\ closes (fst r) = []
  /\ waits (fst r) = [].
Proof.
  intros c.
  apply (write_gif_mask_shape_mismatch
           Sample.e c "out.gif" 1 "ffmpeg" Py.PyNone 1 false 0 true None false
           NotCallable (fun _ => [[(1 # 4)%Q; (1 # 4)%Q]]) [] 0%Q Sample.black []);
    reflexivity.
Defined.

(** ** The size of the buffers *)

Lemma concat_length_uniform {A} (n : nat) (l : list (list A)) :
  Forall (fun x => List.length x = n) l ->
  List.length (List.concat l) = (List.length l * n)%nat.
Proof.
  induction 1 as [|x l Hx Hl IH]; [reflexivity|].
  cbn [List.concat List.length]. rewrite length_app, Hx, IH. lia.
Qed.

Lemma tostring_length hh ww ch (fr : frame) :
  frame_shape hh ww ch fr ->
  List.length (np.tostring fr) = (hh * ww * ch)%nat.
Proof.
  intros [Hh Hrows]. unfold np.tostring.
  rewrite (concat_length_uniform (ww * ch)).
  - rewrite length_map, Hh. lia.
  - apply Forall_map. apply Forall_impl with (2 := Hrows).
    intros row [Hw Hpx]. rewrite (concat_length_uniform ch) by exact Hpx.
    rewrite Hw. reflexivity.
Qed.

Lemma dstack_row_shape (row : list (list Z)) : forall (mrow : list Q),
  List.length mrow = List.length row ->
  Forall (fun px => List.length px = 3%nat) row ->
  exists r,
    np.zip_strict (fun px a => Some (map inject_Z px ++ [a])) row mrow = Some r
    /\ List.length r = List.length row
    /\ Forall (fun px => List.length px = 4%nat) r.
Proof.
  induction row as [|px row IH]; intros [|a mrow] Hlen Hrow;
    try discriminate Hlen.
  - exists []. repeat split. constructor.
  - inversion Hrow as [|? ? Hpx Hrow']; subst.
    injection Hlen as Hlen.
    destruct (IH mrow Hlen Hrow') as (r & Hr & Hl & Hf).
    exists ((map inject_Z px ++ [a]) :: r).
    cbn [np.zip_strict]. rewrite Hr. repeat split.
    + cbn [List.length]. rewrite Hl. reflexivity.
    + constructor; [|exact Hf].
      rewrite length_app, length_map, Hpx. reflexivity.
Qed.

Lemma dstack_shape ww (fr : frame) : forall (m : mask_frame),
  List.length m = List.length fr ->
  Forall (fun row => List.length row = ww
                     /\ Forall (fun px => List.length px = 3%nat) row) fr ->
  Forall (fun row => List.length row = ww) m ->
  exists a,
    np.dstack fr m = Some a
    /\ frame_shape (List.length fr) ww 4 (np.astype_uint8 a).
Proof.
  unfold np.dstack, np.astype_uint8, frame_shape.
  induction fr as [|row fr IH]; intros [|mrow m] Hlen Hfr Hm;
    try discriminate Hlen.
  - exists []. repeat split. constructor.
  - inversion Hfr as [|? ? [Hw Hpx] Hfr']; subst.
    inversion Hm as [|? ? Hmw Hm']; subst.
    injection Hlen as Hlen.
    destruct (IH m Hlen Hfr' Hm') as (a & Ha & Hal & Haf).
    destruct (dstack_row_shape row mrow) as (r & Hr & Hrl & Hrf);
      [congruence|exact Hpx|].
    exists (r :: a). cbn [np.zip_strict]. rewrite Hr, Ha.
    repeat split.
    + cbn [map List.length]. rewrite Hal. reflexivity.
    + cbn [map]. constructor; [|exact Haf].
      rewrite length_map. split; [exact Hrl|].
      apply Forall_map. apply Forall_impl with (2 := Hrf).
      intros px Hpx4. rewrite length_map. exact Hpx4.
Qed.

Lemma scale_shape hh ww k (m : mask_frame) :
  mask_shape hh ww m -> mask_shape hh ww (np.scale k m).
Proof.
  intros [Hh Hw]. unfold mask_shape, np.scale. rewrite length_map.
  split; [exact Hh|].
  apply Forall_map. apply Forall_impl with (2 := Hw).
  intros row Hrow. rewrite length_map. exact Hrow.
Qed.

(** The buffer of a frame of shape (hh, ww, 3) has 3 bytes per pixel, and
    4 when a mask frame of shape (hh, ww) is composited. *)
Lemma buffer_of_length c wm hh ww t fr :
  frame_shape hh ww 3 fr ->
  (forall get_frame, mask c = Some get_frame -> mask_shape hh ww (get_frame t)) ->
  forall b, buffer_of c (effective_withmask c wm) (t, fr) = Some b ->
  List.length b = (hh * ww * (if effective_withmask c wm then 4 else 3))%nat.
Proof.
  intros Hfr Hmask b. unfold buffer_of, composite, effective_withmask.
  cbn [fst snd].
  destruct (mask c) as [get_frame|]; [destruct wm|].
  - destruct (scale_shape hh ww 255 (get_frame t) (Hmask get_frame eq_refl))
      as [Hmh Hmw].
    destruct Hfr as [Hh Hrows].
    destruct (dstack_shape ww fr (np.scale 255 (get_frame t)))
      as (a & Ha & Hshape); [congruence|exact Hrows|exact Hmw|].
    rewrite Ha. cbn [snd ret]. intros [= <-].
    rewrite Hh in Hshape. apply tostring_length. exact Hshape.
  - cbn [snd ret]. intros [= <-]. apply tostring_length. exact Hfr.
  - cbn [snd ret]. intros [= <-]. apply tostring_length. exact Hfr.
Qed.

Lemma Forall_of_map_Some {A B} (P : B -> Prop) (g : A -> option B)
      (bs : list B) : forall (xs : list A),
  map Some bs = map g xs ->
  (forall x b, In x xs -> g x = Some b -> P b) ->
  Forall P bs.
Proof.
  induction bs as [|b bs IH]; intros [|x xs] Heq HP; try discriminate Heq;
    constructor.
  - cbn [map] in Heq. injection Heq as Hb Heq.
    apply (HP x b); [left; reflexivity|symmetry; exact Hb].
  - cbn [map] in Heq. injection Heq as Hb Heq.
    apply (IH xs Heq). intros x0 b0 Hin. apply HP. right. exact Hin.
Qed.

Lemma In_firstn {A} (x : A) (l : list A) : forall n,
  In x (firstn n l) -> In x l.
Proof.
  induction l as [|y l IH]; intros [|n] Hin; try contradiction.
  destruct Hin as [->|Hin]; [left; reflexivity|right; exact (IH n Hin)].
Qed.

(** X8. If every frame the clip yields has shape (h, w, 3) and every mask
    frame has shape (h, w), [h] and [w] being the size given to ffmpeg
    with [-s], then every buffer written to the pipe has exactly
    h * w * 4 bytes when the mask is composited (pixel format [rgba])
    and h * w * 3 bytes otherwise ([rgb24]). *)
Theorem write_gif_buffer_sizes e c filename fps program opt fuzz verbose
        withmask loop dispose colors progress_bar progress_cb :
  Forall (fun tf => frame_shape (Z.to_nat (h c)) (Z.to_nat (w c)) 3 (snd tf))
         (iter_frames c fps) ->
  (forall get_frame t, mask c = Some get_frame ->
                       mask_shape (Z.to_nat (h c)) (Z.to_nat (w c)) (get_frame t)) ->
  Forall (fun b => List.length b
                   = (Z.to_nat (h c) * Z.to_nat (w c)
                      * (if effective_withmask c withmask then 4 else 3))%nat)
         (writes (fst (write_gif e c filename fps program opt fuzz verbose
                                 withmask loop dispose colors progress_bar
                                 progress_cb))).
Proof.
  intros Hframes Hmask.
  destruct (Qeq_bool fps 0) eqn:Hfps.
  { unfold write_gif, truediv. rewrite Hfps. constructor. }
  pose proof (write_gif_stream_events e c filename fps program opt fuzz verbose
                withmask loop dispose colors progress_bar progress_cb Hfps)
    as H.
  cbv zeta in H.
  destruct (snd (launch_pipeline _ _ _ _ _ _ _ _ _ _ _ _)) as [[]|ex].
  - destruct H as (Hw & _). rewrite Hw.
    destruct (stream_frames_prefix e c (effective_withmask c withmask)
                progress_cb (Py.int (duration c * fps) + 1)
                (iter_frames c fps) 0%nat 1) as (n & _ & Hn & _).
    cbv zeta in Hn.
    apply (Forall_of_map_Some _ _ _ _ Hn).
    intros [t fr] b Hin Hb.
    apply In_firstn in Hin.
    rewrite Forall_forall in Hframes.
    apply (buffer_of_length c withmask _ _ t fr); auto.
    apply (Hframes (t, fr) Hin).
  - destruct H as (Hw & _). rewrite Hw. constructor.
Qed.

Lemma write_gif_buffer_sizes_witness :
  Forall (fun b => List.length b
                   = (Z.to_nat (h Sample.masked) * Z.to_nat (w Sample.masked)
                      * (if effective_withmask Sample.masked true
                         then 4 else 3))%nat)
         (writes (fst (write_gif Sample.e Sample.masked "out.gif" 2 "ffmpeg"
                                 Py.PyNone 1 false true 0 true None false
                                 NotCallable))).
Proof.
  apply (write_gif_buffer_sizes Sample.e Sample.masked "out.gif" 2 "ffmpeg"
                                Py.PyNone 1 false true 0 true None false
                                NotCallable).
  - repeat constructor.
  - intros get_frame t [= <-]. repeat constructor.
Defined.

(** ** The temporary files *)

Lemma saves_app tr1 tr2 : saves (tr1 ++ tr2) = saves tr1 ++ saves tr2.
Proof. apply flat_map_app. Qed.

Lemma removes_app tr1 tr2 : removes (tr1 ++ tr2) = removes tr1 ++ removes tr2.
Proof. apply flat_map_app. Qed.

Lemma save_frames_saves fileName cb total ts : forall i,
  saves (fst (save_frames fileName cb total i ts))
  = combine (map (tempfile_name fileName) (seq i (List.length ts))) ts
  /\ removes (fst (save_frames fileName cb total i ts)) = [].
Proof.
  induction ts as [|t rest IH]; intros i; [split; reflexivity|].
  cbn [save_frames]. rewrite bind_emit.
  destruct (IH (S i)) as (Hs & Hr).
  destruct (save_frames_run fileName cb total rest (S i)) as (Hres & _).
  destruct (save_frames fileName cb total (S i) rest) as [tr res].
  cbn [fst snd] in Hs, Hr, Hres. subst res.
  unfold saves, removes in *.
  destruct (callable cb); simpl; rewrite ?app_nil_r, Hs, Hr;
    split; reflexivity.
Qed.

Lemma remove_all_removes names :
  removes (fst (remove_all names)) = names
  /\ saves (fst (remove_all names)) = [].
Proof.
  induction names as [|f rest [Hr Hs]]; [split; reflexivity|].
  cbn [remove_all]. rewrite bind_emit. cbn [fst].
  unfold removes, saves in *. simpl. rewrite Hr, Hs. split; reflexivity.
Qed.

(** What a run of [write_gif_with_tempfiles] does to the disk and how it
    ends.  All frames are saved first; the files are removed only when
    the command has run without error. *)
Lemma write_gif_with_tempfiles_run e c filename fps program opt fuzz verbose
      loop dispose colors progress_bar progress_cb :
  Qeq_bool fps 0 = false ->
  let ts := np.arange 0 (duration c) (1 / fps)%Q in
  let names := tempfile_names e filename (List.length ts) in
  let r := write_gif_with_tempfiles e c filename fps program opt fuzz verbose
                                    loop dispose colors progress_bar
                                    progress_cb in
  saves (fst r) = combine names ts
  /\ match tempfiles_cmd e filename fps program opt fuzz loop dispose colors with
     | None => snd r = Raised UnboundLocalError
               /\ calls (fst r) = [] /\ removes (fst r) = []
     | Some cmd =>
         match subprocess_call_error e cmd with
         | Some msg =>
             snd r = Raised (IOError (tempfiles_error filename program msg))
             /\ calls (fst r) = [] /\ removes (fst r) = []
         | None =>
             snd r = Ok tt /\ calls (fst r) = [cmd] /\ removes (fst r) = names
         end
     end.
Proof.
  intros Hfps ts names r. subst r.
  unfold write_gif_with_tempfiles, truediv, tempfiles_cmd. rewrite Hfps.
  set (fileName := fst (splitext e filename)) in *.
  set (total := Py.int (duration c * fps) + 1).
  rewrite bind_ret_l. fold ts.
  destruct (save_frames_run fileName progress_cb total ts 0) as (HSr & _ & HSc).
  destruct (save_frames_saves fileName progress_cb total ts 0) as (HSs & HSrm).
  fold (tempfile_names e filename (List.length ts)) in HSr, HSs.
  fold names in HSr, HSs.
  destruct (save_frames fileName progress_cb total 0 ts) as [str sres].
  cbn [fst snd] in HSr, HSc, HSs, HSrm |- *. subst sres.
  rewrite bind_Ok. cbv beta. rewrite !bind_ret_l. cbv beta.
  change (map (tempfile_name fileName) (seq 0 (List.length ts))) with names
    in *.
  destruct (remove_all_run names) as (HRr & _ & HRc).
  destruct (remove_all_removes names) as (HRrm & HRs).
  destruct (remove_all names) as [rtr rres].
  cbn [fst snd] in HRr, HRc, HRrm, HRs. subst rres.
  unfold subprocess_call.
  destruct (program =? "ImageMagick")%string;
    [|destruct (program =? "ffmpeg")%string];
    destruct verbose; simpl;
    try destruct (subprocess_call_error e _); simpl;
    rewrite ?saves_app, ?calls_app, ?removes_app; simpl;
    rewrite ?HSs, ?HSc, ?HSrm, ?HRrm, ?HRs, ?HRc, ?app_nil_r;
    repeat split; reflexivity.
Qed.

Lemma map_fst_combine {A B} (l1 : list A) : forall (l2 : list B),
  List.length l1 = List.length l2 ->
  map fst (combine l1 l2) = l1 /\ map snd (combine l1 l2) = l2.
Proof.
  induction l1 as [|a l1 IH]; intros [|b l2] Hlen; try discriminate Hlen;
    [split; reflexivity|].
  injection Hlen as Hlen. destruct (IH l2 Hlen) as [H1 H2].
  cbn [combine map fst snd]. rewrite H1, H2. split; reflexivity.
Qed.

Lemma tempfile_names_length e filename n :
  List.length (tempfile_names e filename n) = n.
Proof.
  unfold tempfile_names. rewrite length_map, length_seq. reflexivity.
Qed.

(** The frames saved by any run: one per value of [tt], named in
    sequence from 1, ceil(duration * fps) of them. *)
Lemma write_gif_with_tempfiles_saves e c filename fps program opt fuzz verbose
      loop dispose colors progress_bar progress_cb :
  Qeq_bool fps 0 = false ->
  let n := Z.to_nat (Qceiling (duration c * fps)) in
  let r := write_gif_with_tempfiles e c filename fps program opt fuzz verbose
                                    loop dispose colors progress_bar
                                    progress_cb in
  map fst (saves (fst r)) = tempfile_names e filename n
  /\ map snd (saves (fst r)) = np.arange 0 (duration c) (1 / fps)%Q
  /\ List.length (saves (fst r)) = n.
Proof.
  intros Hfps n r.
  destruct (write_gif_with_tempfiles_run e c filename fps program opt fuzz
              verbose loop dispose colors progress_bar progress_cb Hfps)
    as [Hs _].
  cbv zeta in Hs. fold r in Hs. rewrite Hs.
  pose proof (arange_length (duration c) fps Hfps) as Hlen. fold n in Hlen.
  rewrite Hlen.
  destruct (map_fst_combine (tempfile_names e filename n)
              (np.arange 0 (duration c) (1 / fps)%Q)) as [H1 H2].
  { rewrite tempfile_names_length. symmetry. exact Hlen. }
  rewrite H1, H2, length_combine, tempfile_names_length, Hlen.
  repeat split. apply Nat.min_id.
Qed.








(** ** The times of the frames *)




(** ** Parameters that [write_gif_with_tempfiles] does not look at *)

(** X13. With [program = 'ffmpeg'], [write_gif_with_tempfiles] does not
    look at [opt], [fuzz], [loop], [dispose] and [colors]: two calls
    that differ only in them give the same run, and the command run is
    the ffmpeg command, which holds none of them. *)
Theorem write_gif_with_tempfiles_ffmpeg_ignores_options e c filename fps verbose
        progress_bar progress_cb opt fuzz loop dispose colors
        opt' fuzz' loop' dispose' colors' :
  let r := write_gif_with_tempfiles e c filename fps "ffmpeg" opt fuzz verbose
                                    loop dispose colors progress_bar
                                    progress_cb in
  r = write_gif_with_tempfiles e c filename fps "ffmpeg" opt' fuzz' verbose
                               loop' dispose' colors' progress_bar progress_cb
  /\ forall cmd, In cmd (calls (fst r)) ->
       cmd = tempfiles_cmd_ffmpeg e (fst (splitext e filename)) filename fps.
Proof.
  intros r. subst r. split.
  - unfold write_gif_with_tempfiles, tempfiles_error.
    cbn [String.eqb Ascii.eqb Bool.eqb]. reflexivity.
  - destruct (Qeq_bool fps 0) eqn:Hfps.
    { unfold write_gif_with_tempfiles, truediv. rewrite Hfps.
      intros cmd []. }
    intros cmd Hin.
    destruct (write_gif_with_tempfiles_events e c filename fps "ffmpeg" opt
                fuzz verbose loop dispose colors progress_bar progress_cb Hfps)
      as [_ Hcalls].
    cbv zeta in Hcalls.
    destruct (Hcalls cmd Hin) as [[HIM _] | [_ ->]];
      [discriminate HIM|reflexivity].
Qed.





(** ** [write_gif_with_image_io] *)

Lemma append_frames_run cb nframes frames : forall count,
  ImageIO.appended (ImageIO.append_frames cb nframes count frames) = frames
  /\ ImageIO.callbacks (ImageIO.append_frames cb nframes count frames)
     = (if callable cb
        then progress_reports count (List.length frames) nframes
        else [])
  /\ ImageIO.without_callbacks (ImageIO.append_frames cb nframes count frames)
     = ImageIO.append_frames NotCallable nframes count frames.
Proof.
  induction frames as [|fr rest IH]; intros count.
  - destruct (callable cb); repeat split; reflexivity.
  - destruct (IH (count + 1)) as (Ha & Hc & Hw).
    unfold ImageIO.appended, ImageIO.callbacks, ImageIO.without_callbacks in *.
    cbn [ImageIO.append_frames callable].
    destruct (callable cb); simpl; rewrite Ha, Hc, Hw;
      repeat split; reflexivity.
Qed.

Lemma append_frames_no_save cb nframes frames filename d q p l : forall count,
  ~ In (ImageIO.Save filename d q p l)
       (ImageIO.append_frames cb nframes count frames).
Proof.
  induction frames as [|fr rest IH]; intros count Hin; [destruct Hin|].
  cbn [ImageIO.append_frames] in Hin.
  destruct Hin as [Hin|Hin]; [discriminate Hin|].
  apply in_app_or in Hin. destruct Hin as [Hin|Hin].
  - destruct (callable cb);
      [destruct Hin as [Hin|[]]; discriminate Hin|destruct Hin].
  - exact (IH _ Hin).
Qed.

(** X15. [write_gif_with_image_io] fails before doing anything or not at
    all: without the imageio library it raises [ImportError], with it
    and a frame rate of zero it raises [ZeroDivisionError], and in both
    cases no writer has been opened; otherwise it returns, and the first
    thing it did was to open the writer on the destination file with
    1/fps as frame duration, 256 colours unless [colors] says otherwise,
    and the loop count. *)
Theorem write_gif_with_image_io_outcome IMAGEIO_FOUND c clip_fps filename fps
        opt loop colors verbose progress_bar progress_cb :
  let fps' := match fps with None => clip_fps | Some x => x end in
  let r := ImageIO.write_gif_with_image_io IMAGEIO_FOUND c clip_fps filename
             fps opt loop colors verbose progress_bar progress_cb in
  match snd r with
  | ImageIO.RaisedImportError _ => IMAGEIO_FOUND = false /\ fst r = []
  | ImageIO.RaisedZeroDivisionError =>
      IMAGEIO_FOUND = true /\ Qeq_bool fps' 0 = true /\ fst r = []
  | ImageIO.Returned =>
      IMAGEIO_FOUND = true /\ Qeq_bool fps' 0 = false
      /\ exists quantizer rest,
          fst r = ImageIO.Save filename (1 / fps') quantizer
                               (match colors with None => 256 | Some n => n end)
                               loop :: rest
          /\ (quantizer = Py.PyStr "nq" \/ quantizer = Py.PyInt 0)
          /\ (forall d q p l, ~ In (ImageIO.Save filename d q p l) rest)
  end.
Proof.
  intros fps' r. subst r. unfold ImageIO.write_gif_with_image_io.
  fold fps'.
  destruct IMAGEIO_FOUND; cbn [negb fst snd]; [|split; reflexivity].
  destruct (Qeq_bool fps' 0) eqn:Hfps; cbn [fst snd];
    [repeat split; reflexivity|].
  split; [reflexivity|]. split; [reflexivity|].
  eexists _, _. split; [reflexivity|].
  split; [destruct (ImageIO.ne_0 opt); auto|].
  intros d q p l Hin.
  apply in_app_or in Hin. destruct Hin as [Hin|Hin].
  - destruct verbose; [destruct Hin as [Hin|[]]; discriminate Hin|destruct Hin].
  - exact (append_frames_no_save _ _ _ _ _ _ _ _ _ Hin).
Qed.




(** X18. On the same clip at the same frame rate, a call of [write_gif]
    that returns and a call of [write_gif_with_image_io] report the same
    progress to a callable callback: the same invocations in the same
    order. *)
Theorem progress_reports_agree e c clip_fps filename fps program opt fuzz
        verbose withmask loop dispose colors progress_bar opt' verbose' :
  snd (write_gif e c filename fps program opt fuzz verbose withmask loop
                 dispose colors progress_bar Callable) = Ok tt ->
  ImageIO.callbacks
    (fst (ImageIO.write_gif_with_image_io true c clip_fps filename (Some fps)
            opt' loop colors verbose' progress_bar Callable))
  = callbacks (fst (write_gif e c filename fps program opt fuzz verbose
                              withmask loop dispose colors progress_bar
                              Callable)).
Proof.
  intros Hok.
  assert (Hfps : Qeq_bool fps 0 = false).
  { destruct (Qeq_bool fps 0) eqn:H; [|reflexivity].
    unfold write_gif, truediv in Hok. rewrite H in Hok. discriminate Hok. }
  rewrite (write_gif_callbacks e c filename fps program opt fuzz verbose
             withmask loop dispose colors progress_bar Hok).
  unfold ImageIO.write_gif_with_image_io. rewrite Hfps. cbn [negb fst].
  destruct (append_frames_run Callable (Py.int (duration c * fps) + 1)
              (map snd (iter_frames c fps)) 1) as (_ & Hc & _).
  rewrite length_map in Hc. cbn [callable] in Hc.
  unfold ImageIO.callbacks in *.
  cbn [flat_map app]. rewrite flat_map_app, Hc.
  destruct verbose'; reflexivity.
Qed.

Lemma progress_reports_agree_witness :
  ImageIO.callbacks
    (fst (ImageIO.write_gif_with_image_io true Sample.opaque 2 "out.gif"
            (Some 2%Q) (Py.PyInt 0) 0 None false false Callable))
  = callbacks (fst (write_gif Sample.e Sample.opaque "out.gif" 2 "ffmpeg"
                              Py.PyNone 1 false true 0 true None false
                              Callable)).
Proof.
  apply (progress_reports_agree
           Sample.e Sample.opaque 2 "out.gif" 2 "ffmpeg" Py.PyNone 1 false true
           0 true None false (Py.PyInt 0) false).
  reflexivity.
Defined.

(** ** The names of the temporary files *)

Lemma fmt_d_pos (p : positive) :
  Py.fmt_d (Zpos p) = NilEmpty.string_of_uint (Pos.to_uint p).
Proof.
  unfold Py.fmt_d. cbn [Z.to_int].
  unfold NilZero.string_of_int, NilZero.string_of_uint.
  destruct (Pos.to_uint p) eqn:E; try reflexivity.
  exfalso. exact (DecimalPos.Unsigned.to_uint_nonnil p E).
Qed.

Lemma zeros_decode (k : nat) (s : string) :
  NilEmpty.uint_of_string (Py.zeros k ++ s)
  = option_map (Nat.iter k Decimal.D0) (NilEmpty.uint_of_string s).
Proof.
  induction k as [|k IH].
  - cbn. destruct (NilEmpty.uint_of_string s); reflexivity.
  - cbn [Py.zeros String.append NilEmpty.uint_of_string Nat.iter nat_rect].
    change (("0" ++ Py.zeros k) ++ s)%string
      with (String "0" (Py.zeros k ++ s)).
    cbn [NilEmpty.uint_of_string]. rewrite IH.
    destruct (NilEmpty.uint_of_string s); reflexivity.
Qed.

Lemma of_uint_leading_zeros (k : nat) (d : Decimal.uint) :
  Pos.of_uint (Nat.iter k Decimal.D0 d) = Pos.of_uint d.
Proof.
  induction k as [|k IH]; [reflexivity|]. exact IH.
Qed.

(** Zero padding keeps the number readable: two positive numbers printed
    with ["%0<width>d"] are the same string only if they are equal. *)
Lemma fmt_0d_inj (width : nat) (z z' : Z) :
  0 < z -> 0 < z' -> Py.fmt_0d width z = Py.fmt_0d width z' -> z = z'.
Proof.
  intros Hz Hz' H.
  destruct z as [|p|p]; try lia. destruct z' as [|p'|p']; try lia.
  unfold Py.fmt_0d in H. cbn [Z.ltb Z.compare] in H.
  rewrite !fmt_d_pos in H.
  apply (f_equal (fun s => option_map Pos.of_uint (NilEmpty.uint_of_string s)))
    in H.
  rewrite !zeros_decode, !NilEmpty.usu in H. cbn [option_map] in H.
  rewrite !of_uint_leading_zeros, !DecimalPos.Unsigned.of_to in H.
  congruence.
Qed.

Lemma string_length_app (a b : string) :
  String.length (a ++ b) = (String.length a + String.length b)%nat.
Proof.
  induction a as [|ch a IH]; [reflexivity|].
  cbn. rewrite IH. reflexivity.
Qed.

Lemma string_app_inv_head (s a b : string) :
  (s ++ a = s ++ b)%string -> a = b.
Proof.
  induction s as [|ch s IH]; intros H; [exact H|].
  cbn in H. injection H as H. exact (IH H).
Qed.

Lemma string_app_inv_tail (s : string) : forall a b : string,
  (a ++ s = b ++ s)%string -> a = b.
Proof.
  induction a as [|ch a IH]; intros [|ch' b] H.
  - reflexivity.
  - apply (f_equal String.length) in H.
    cbn in H. rewrite string_length_app in H. lia.
  - apply (f_equal String.length) in H.
    cbn in H. rewrite string_length_app in H. lia.
  - cbn in H. injection H as -> H. rewrite (IH b H). reflexivity.
Qed.

Lemma tempfile_name_inj fileName i j :
  tempfile_name fileName i = tempfile_name fileName j -> i = j.
Proof.
  unfold tempfile_name. intros H.
  apply string_app_inv_head in H.
  apply (string_app_inv_head "_GIFTEMP") in H.
  apply string_app_inv_tail in H.
  apply fmt_0d_inj in H; lia.
Qed.

Lemma NoDup_map_inj {A B} (f : A -> B) (l : list A) :
  (forall x y, f x = f y -> x = y) -> NoDup l -> NoDup (map f l).
Proof.
  intros Hinj. induction 1 as [|x l Hx Hl IH]; cbn [map]; constructor;
    [|exact IH].
  intros Hin. apply in_map_iff in Hin as (y & Hy & Hin).
  apply Hinj in Hy. subst y. exact (Hx Hin).
Qed.

(** X19. The temporary files of a run of [write_gif_with_tempfiles] have
    pairwise distinct names, also beyond frame 9999 where the number no
    longer fits the four digits of the pattern: no frame is saved over
    another one. *)
Theorem write_gif_with_tempfiles_distinct_names e c filename fps program opt
        fuzz verbose loop dispose colors progress_bar progress_cb :
  Qeq_bool fps 0 = false ->
  NoDup (map fst (saves (fst (write_gif_with_tempfiles
                                e c filename fps program opt fuzz verbose loop
                                dispose colors progress_bar progress_cb)))).
Proof.
  intros Hfps.
  destruct (write_gif_with_tempfiles_saves e c filename fps program opt fuzz
              verbose loop dispose colors progress_bar progress_cb Hfps)
    as (Hnames & _).
  cbv zeta in Hnames. rewrite Hnames. unfold tempfile_names.
  apply NoDup_map_inj; [|apply seq_NoDup].
  intros i j. apply tempfile_name_inj.
Qed.

Lemma write_gif_with_tempfiles_distinct_names_witness :
  NoDup (map fst (saves (fst (write_gif_with_tempfiles
                                Sample.e Sample.opaque "out.gif" 15
                                "ImageMagick" Py.PyNone 1 false 0 true None
                                false NotCallable)))).
Proof.
  apply (write_gif_with_tempfiles_distinct_names
           Sample.e Sample.opaque "out.gif" 15 "ImageMagick" Py.PyNone 1 false
           0 true None false NotCallable).
  reflexivity.
Defined.

(** ** A frame rate of zero *)

(** X20. With a frame rate of zero, [write_gif] and
    [write_gif_with_tempfiles] raise [ZeroDivisionError] on their first
    division, before anything else: no process is launched, no frame is
    saved and nothing is printed. *)
Theorem zero_fps_raises_first e c filename fps program opt fuzz verbose
        withmask loop dispose colors progress_bar progress_cb :
  (fps == 0)%Q ->
  write_gif e c filename fps program opt fuzz verbose withmask loop dispose
            colors progress_bar progress_cb = ([], Raised ZeroDivisionError)
  /\ write_gif_with_tempfiles e c filename fps program opt fuzz verbose loop
                              dispose colors progress_bar progress_cb
     = ([], Raised ZeroDivisionError).
Proof.
  intros Hfps. apply Qeq_bool_iff in Hfps.
  unfold write_gif, write_gif_with_tempfiles, truediv. rewrite Hfps.
  split; reflexivity.
Qed.

Lemma zero_fps_raises_first_witness :
  write_gif Sample.e Sample.opaque "out.gif" 0 "ImageMagick" Py.PyNone 1 true
            true 0 true None false Callable = ([], Raised ZeroDivisionError)
  /\ write_gif_with_tempfiles Sample.e Sample.opaque "out.gif" 0 "ImageMagick"
                              Py.PyNone 1 true 0 true None false Callable
     = ([], Raised ZeroDivisionError).
Proof.
  apply (zero_fps_raises_first Sample.e Sample.opaque "out.gif" 0 "ImageMagick"
                               Py.PyNone 1 true true 0 true None false Callable).
  reflexivity.
Defined.

(** ** Concrete runs of the statements above *)

Lemma write_gif_with_tempfiles_ffmpeg_ignores_options_witness :
  let r := write_gif_with_tempfiles Sample.e Sample.opaque "out.gif" 2 "ffmpeg"
             (Py.PyStr "OptimizeTransparency") 1 false 0 true None false
             NotCallable in
  r = write_gif_with_tempfiles Sample.e Sample.opaque "out.gif" 2 "ffmpeg"
        Py.PyNone 5 false 3 false (Some 64) false NotCallable
  /\ forall cmd, In cmd (calls (fst r)) ->
       cmd = tempfiles_cmd_ffmpeg Sample.e (fst (splitext Sample.e "out.gif"))
                                  "out.gif" 2.
Proof.
  exact (write_gif_with_tempfiles_ffmpeg_ignores_options
           Sample.e Sample.opaque "out.gif" 2 false false NotCallable
           (Py.PyStr "OptimizeTransparency") 1 0 true None
           Py.PyNone 5 3 false (Some 64)).
Defined.

Lemma write_gif_with_image_io_outcome_witness :
  ImageIO.write_gif_with_image_io true Sample.opaque 2 "out.gif" None
    (Py.PyInt 0) 0 None false false Callable
  = ([ImageIO.Save "out.gif" (1 / 2) (Py.PyStr "nq") 256 0;
      ImageIO.AppendData Sample.black; ImageIO.ProgressCb 1 3;
      ImageIO.AppendData Sample.grey; ImageIO.ProgressCb 2 3],
     ImageIO.Returned)
  /\ (true = true /\ Qeq_bool 2 0 = false
      /\ exists quantizer rest,
          [ImageIO.Save "out.gif" (1 / 2) (Py.PyStr "nq") 256 0;
           ImageIO.AppendData Sample.black; ImageIO.ProgressCb 1 3;
           ImageIO.AppendData Sample.grey; ImageIO.ProgressCb 2 3]
          = ImageIO.Save "out.gif" (1 / 2) quantizer 256 0 :: rest
          /\ (quantizer = Py.PyStr "nq" \/ quantizer = Py.PyInt 0)
          /\ (forall d q p l, ~ In (ImageIO.Save "out.gif" d q p l) rest)).
Proof.
  split; [reflexivity|].
  exact (write_gif_with_image_io_outcome
           true Sample.opaque 2 "out.gif" None (Py.PyInt 0) 0 None false false
           Callable).
Defined.
